(** * Workbook descriptor of excelize: properties, protection, path
    resolution and the caching reader ([workbook.go]).

    The Go methods on [*File] are embedded as functions that take the file
    state and return the new state next to their Go results.  A Go [error]
    return is an [option error] ([None] is Go's [nil]); a nilable pointer is
    an [option]. *)

From Stdlib Require Import ZArith Ascii String DecimalString.
From Stdlib Require DecimalZ.
From stdpp Require Import base option list strings gmap.

Local Open Scope string_scope.
Local Open Scope Z_scope.

(** ** Go's [strings] and [path/filepath] (Unix flavour) *)

Module strings.

(** [strip s prefix] is [Some rest] when [s = prefix ++ rest]. *)
Fixpoint strip (s prefix : string) {struct prefix} : option string :=
  match prefix, s with
  | EmptyString, _ => Some s
  | String c p, String d r => if Ascii.eqb c d then strip r p else None
  | String _ _, EmptyString => None
  end.

(** [strings.TrimPrefix]: [s] without the leading [prefix]; [s] itself
    when it does not start with [prefix]. *)
Definition TrimPrefix (s prefix : string) : string :=
  match strip s prefix with
  | Some rest => rest
  | None => s
  end.

End strings.

Module filepath.

Definition Separator : ascii := "/"%char.

Definition IsPathSeparator (c : ascii) : bool := Ascii.eqb c Separator.

(** The path elements between separators, empty ones included: what the
    scanning loops of [Clean], [Dir] and [Base] step over. *)
Fixpoint elements (path : string) : list string :=
  match path with
  | EmptyString => [EmptyString]
  | String c r =>
      if IsPathSeparator c then EmptyString :: elements r
      else match elements r with
           | e :: es => String c e :: es
           | [] => [String c EmptyString]
           end
  end.

(** One turn of the loop of [Clean] on element [e]; [out] holds the
    elements written so far, last one first. *)
Definition cleanStep (rooted : bool) (out : list string) (e : string)
  : list string :=
  if String.eqb e "" then out            (* empty path element *)
  else if String.eqb e "." then out      (* . element *)
  else if String.eqb e ".." then         (* .. element *)
    match out with
    | top :: rest =>
        if String.eqb top ".."
        then (if rooted then out else e :: out)
        else rest                        (* can backtrack *)
    | [] => if rooted then out else [e]
    end
  else e :: out.                         (* real path element *)

Definition Clean (path : string) : string :=
  match path with
  | EmptyString => "."
  | String c _ =>
      let rooted := IsPathSeparator c in
      let out := fold_left (cleanStep rooted) (elements path) [] in
      let body := String.concat "/" (rev out) in
      if rooted then String Separator body
      else if String.eqb body "" then "." else body
  end.

Fixpoint hasSeparator (s : string) : bool :=
  match s with
  | EmptyString => false
  | String c r => IsPathSeparator c || hasSeparator r
  end.

(** [path[:i+1]] for [i] the index of the last separator of [path]
    (the empty string when there is none). *)
Fixpoint upToLastSeparator (path : string) : string :=
  match path with
  | EmptyString => EmptyString
  | String c r =>
      if IsPathSeparator c || hasSeparator r
      then String c (upToLastSeparator r)
      else EmptyString
  end.

(** [filepath.Dir]: all but the last element of [path], cleaned. *)
Definition Dir (path : string) : string := Clean (upToLastSeparator path).

Fixpoint stripTrailingSeparators (path : string) : string :=
  match path with
  | EmptyString => EmptyString
  | String c r =>
      let r' := stripTrailingSeparators r in
      if IsPathSeparator c && String.eqb r' "" then EmptyString
      else String c r'
  end.

(** [filepath.Base]: the last element of [path]. *)
Definition Base (path : string) : string :=
  if String.eqb path "" then "."
  else
    let b := default EmptyString
               (last (elements (stripTrailingSeparators path))) in
    if String.eqb b "" then String Separator EmptyString else b.

End filepath.

Module strconv.

(** [strconv.Itoa]: the decimal text of an integer. *)
Definition Itoa (i : Z) : string := NilEmpty.string_of_int (Z.to_int i).

(** The integer a decimal text denotes. *)
Definition decimalValue (s : string) : option Z :=
  Z.of_int <$> NilEmpty.int_of_string s.

End strconv.

(** ** Data model *)

(** Go's [error] values that reach the callers of this file. *)
Inductive error : Type :=
  | io_EOF                         (* io.EOF *)
  | ErrUnprotectWorkbook           (* workbook has set no protect *)
  | ErrUnprotectWorkbookPassword   (* workbook protect password not match *)
  | ErrUnsupportedHashAlgorithm    (* unsupported hash algorithm *)
  | DecodeError (msg : string).    (* any other error of the XML decoder *)

Definition is_EOF (e : error) : bool :=
  match e with io_EOF => true | _ => false end.

(** [xml.Attr]. *)
Record xmlAttr_t : Type := mkAttr {
  AttrSpace : string;
  AttrLocal : string;
  AttrValue : string
}.

(** [xlsxRelationship], an entry of a [.rels] part. *)
Record xlsxRelationship : Type := mkRelationship {
  RelID : string;
  Target : string;
  Type_ : string
}.

(** [xlsxWorkbookPr]. *)
Record xlsxWorkbookPr : Type := mkWorkbookPr {
  Date1904 : bool;
  FilterPrivacy : bool;
  CodeName : string
}.

(** [xlsxWorkbookProtection]. *)
Record xlsxWorkbookProtection : Type := mkWorkbookProtection {
  LockStructure : bool;
  LockWindows : bool;
  WorkbookAlgorithmName : string;
  WorkbookSaltValue : string;
  WorkbookHashValue : string;
  WorkbookSpinCount : Z
}.

(** [xlsxSheet]. *)
Record xlsxSheet : Type := mkSheet {
  Name : string;
  SheetID : Z;
  ID : string
}.

(** [xlsxWorkbook], with the fields this file reads or writes; [Sheets]
    stands for [Sheets.Sheet]. *)
Record xlsxWorkbook : Type := mkWorkbook {
  WorkbookPr : option xlsxWorkbookPr;
  WorkbookProtection : option xlsxWorkbookProtection;
  Sheets : list xlsxSheet
}.

(** [new(xlsxWorkbookPr)], [new(xlsxWorkbookProtection)] and
    [new(xlsxWorkbook)]: Go's zero values. *)
Definition new_xlsxWorkbookPr : xlsxWorkbookPr := mkWorkbookPr false false "".

Definition new_xlsxWorkbookProtection : xlsxWorkbookProtection :=
  mkWorkbookProtection false false "" "" "" 0.

Definition new_xlsxWorkbook : xlsxWorkbook := mkWorkbook None None [].

(** [WorkbookPropsOptions]: every field is a pointer. *)
Record WorkbookPropsOptions : Type := mkPropsOptions {
  optDate1904 : option bool;
  optFilterPrivacy : option bool;
  optCodeName : option string
}.

(** [WorkbookProtectionOptions]. *)
Record WorkbookProtectionOptions : Type := mkProtectionOptions {
  AlgorithmName : string;
  Password : string;
  optLockStructure : bool;
  optLockWindows : bool
}.

(** The part of [File] this file works on: the cached workbook, the
    namespace attributes kept per part, the parts of the package and the
    relationship tables already read. *)
Record File : Type := mkFile {
  WorkBook : option xlsxWorkbook;
  xmlAttr : gmap string (list xmlAttr_t);
  Pkg : gmap string string;
  Relationships : gmap string (list xlsxRelationship)
}.

Definition setWorkBook (f : File) (wb : xlsxWorkbook) : File :=
  mkFile (Some wb) (xmlAttr f) (Pkg f) (Relationships f).

Definition setXmlAttr (f : File) (m : gmap string (list xmlAttr_t)) : File :=
  mkFile (WorkBook f) m (Pkg f) (Relationships f).

Definition withWorkbookPr (wb : xlsxWorkbook) (pr : option xlsxWorkbookPr)
  : xlsxWorkbook :=
  mkWorkbook pr (WorkbookProtection wb) (Sheets wb).

Definition withWorkbookProtection (wb : xlsxWorkbook)
    (p : option xlsxWorkbookProtection) : xlsxWorkbook :=
  mkWorkbook (WorkbookPr wb) p (Sheets wb).

Definition withSheets (wb : xlsxWorkbook) (l : list xlsxSheet) : xlsxWorkbook :=
  mkWorkbook (WorkbookPr wb) (WorkbookProtection wb) l.

(** Modelled from the spec: the container store [readXML], which is not in
    this file.  [readPart(path) -> bytes], empty bytes if the part is
    absent, never an error for absence. *)
Definition readXML (f : File) (path : string) : string :=
  default "" (Pkg f !! path).

(** Modelled from the spec: the relationship table reader [relsReader],
    which is not in this file.  [relationshipsFor(containerPath)] gives the
    ordered sequence of relationships of a part, [None] (Go's [nil]) when
    the container has no such table. *)
Definition relsReader (f : File) (path : string)
  : option (list xlsxRelationship) :=
  Relationships f !! path.

(** For the statements about [ProtectWorkbook]: the record it writes
    before it looks at the password (the lock flags of the options and no
    hash material), and the algorithm it asks the hash collaborator for. *)
Definition flagsOnly (o : WorkbookProtectionOptions) : xlsxWorkbookProtection :=
  mkWorkbookProtection (optLockStructure o) (optLockWindows o) "" "" "" 0.

Definition algorithmOf (o : WorkbookProtectionOptions) : string :=
  if String.eqb (AlgorithmName o) "" then "SHA-512" else AlgorithmName o.

(** ** Collaborators

    Constants and helpers of the package that live in other files, and the
    XML decoder of the Go library.  [genISOPasswdHash] takes one argument
    more than in Go: the bytes its random generator yields during the call,
    from which it makes a salt when it is given none. *)
Class Collaborators : Type := {
  SourceRelationshipOfficeDocument : string;
  SourceRelationship : xmlAttr_t;
  workbookProtectionSpinCount : Z;
  namespaceStrictToTransitional : string -> string;
  (* xmlNewDecoder(bytes.NewReader(content)).Decode(new(xlsxWorkbook)):
     what the fresh workbook holds afterwards, and the error *)
  xmlDecode : string -> xlsxWorkbook * option error;
  (* getRootElement(xmlNewDecoder(bytes.NewReader(content))) *)
  getRootElement : string -> list xmlAttr_t;
  (* addNameSpaces(path, ns), which works on f.xmlAttr only *)
  addNameSpaces : gmap string (list xmlAttr_t) -> string -> xmlAttr_t ->
                  gmap string (list xmlAttr_t);
  genISOPasswdHash : string -> string -> string -> string -> Z ->
                     (string * string) + error
}.

(** ** The operations of [workbook.go] *)

Section Workbook.

Context {C : Collaborators}.

(** The loop of [getWorkbookPath] over [rels.Relationships]. *)
Fixpoint firstOfficeDocument (rels : list xlsxRelationship) : string :=
  match rels with
  | [] => ""
  | rel :: rest =>
      if String.eqb (Type_ rel) SourceRelationshipOfficeDocument
      then strings.TrimPrefix (Target rel) "/"
      else firstOfficeDocument rest
  end.

(** For the statements about [getWorkbookPath]: a relationship of
    another type than the one to the office document. *)
Definition otherType (rel : xlsxRelationship) : Prop :=
  Type_ rel <> SourceRelationshipOfficeDocument.

(** [getWorkbookPath]: the path of the workbook part; the lock on the
    table has no effect in a sequential run. *)
Definition getWorkbookPath (f : File) : string :=
  match relsReader f "_rels/.rels" with
  | Some rels => firstOfficeDocument rels
  | None => ""
  end.

(** [getWorkbookRelsPath]. *)
Definition getWorkbookRelsPath (f : File) : string :=
  let wbPath := getWorkbookPath f in
  let wbDir := filepath.Dir wbPath in
  if String.eqb wbDir "."
  then "_rels/" +:+ filepath.Base wbPath +:+ ".rels"
  else strings.TrimPrefix
         (filepath.Dir wbPath +:+ "/_rels/" +:+ filepath.Base wbPath +:+ ".rels")
         "/".

(** [workbookReader]: the file afterwards, the workbook pointer it
    returns (always [f.WorkBook], never nil) and the error. *)
Definition workbookReader (f : File) : File * xlsxWorkbook * option error :=
  match WorkBook f with
  | Some wb => (f, wb, None)
  | None =>
      let wbPath := getWorkbookPath f in
      (* f.WorkBook = new(xlsxWorkbook) *)
      let f1 := setWorkBook f new_xlsxWorkbook in
      let f2 :=
        match xmlAttr f1 !! wbPath with
        | Some _ => f1
        | None =>
            let d := namespaceStrictToTransitional (readXML f1 wbPath) in
            let attrs :=
              (default [] (xmlAttr f1 !! wbPath) ++ getRootElement d)%list in
            let f1' := setXmlAttr f1 (<[wbPath := attrs]> (xmlAttr f1)) in
            setXmlAttr f1' (addNameSpaces (xmlAttr f1') wbPath SourceRelationship)
        end in
      (* Decode(f.WorkBook) writes into the workbook already installed *)
      let '(wb, err) :=
        xmlDecode (namespaceStrictToTransitional (readXML f2 wbPath)) in
      let f3 := setWorkBook f2 wb in
      match err with
      | Some e =>
          if negb (is_EOF e)
          then (f3, wb, err)     (* err != nil && err != io.EOF *)
          else (f3, wb, err)     (* the last return, with err = io.EOF *)
      | None => (f3, wb, err)
      end
  end.

(** [SetWorkbookProps]. *)
Definition SetWorkbookProps (f : File) (opts : option WorkbookPropsOptions)
  : File * option error :=
  let '(f1, wb, err) := workbookReader f in
  match err with
  | Some e => (f1, Some e)
  | None =>
      let pr0 :=
        match WorkbookPr wb with
        | None => new_xlsxWorkbookPr
        | Some pr => pr
        end in
      match opts with
      | None => (setWorkBook f1 (withWorkbookPr wb (Some pr0)), None)
      | Some o =>
          let pr1 :=
            match optDate1904 o with
            | Some b => mkWorkbookPr b (FilterPrivacy pr0) (CodeName pr0)
            | None => pr0
            end in
          let pr2 :=
            match optFilterPrivacy o with
            | Some b => mkWorkbookPr (Date1904 pr1) b (CodeName pr1)
            | None => pr1
            end in
          let pr3 :=
            match optCodeName o with
            | Some s => mkWorkbookPr (Date1904 pr2) (FilterPrivacy pr2) s
            | None => pr2
            end in
          (setWorkBook f1 (withWorkbookPr wb (Some pr3)), None)
      end
  end.

(** [GetWorkbookProps]. *)
Definition GetWorkbookProps (f : File)
  : File * WorkbookPropsOptions * option error :=
  let opts := mkPropsOptions None None None in
  let '(f1, wb, err) := workbookReader f in
  match err with
  | Some e => (f1, opts, Some e)
  | None =>
      match WorkbookPr wb with
      | Some pr =>
          (f1, mkPropsOptions (Some (Date1904 pr)) (Some (FilterPrivacy pr))
                              (Some (CodeName pr)), err)
      | None => (f1, opts, err)
      end
  end.

(** [ProtectWorkbook]; [rnd] is what the random generator of the hash
    collaborator yields during the call.  The default algorithm name is
    also written into the caller's options, which the file does not
    keep. *)
Definition ProtectWorkbook (rnd : string) (f : File)
    (opts : option WorkbookProtectionOptions) : File * option error :=
  let '(f1, wb, err) := workbookReader f in
  match err with
  | Some e => (f1, Some e)
  | None =>
      let wb1 :=
        match WorkbookProtection wb with
        | None => withWorkbookProtection wb (Some new_xlsxWorkbookProtection)
        | Some _ => wb
        end in
      let o :=
        match opts with
        | None => mkProtectionOptions "" "" false false
        | Some o => o
        end in
      let p := mkWorkbookProtection (optLockStructure o) (optLockWindows o)
                                    "" "" "" 0 in
      let wb2 := withWorkbookProtection wb1 (Some p) in
      if negb (String.eqb (Password o) "") then
        let alg :=
          if String.eqb (AlgorithmName o) "" then "SHA-512"
          else AlgorithmName o in
        match genISOPasswdHash rnd (Password o) alg ""
                               workbookProtectionSpinCount with
        | inr e => (setWorkBook f1 wb2, Some e)
        | inl (hashValue, saltValue) =>
            let p' := mkWorkbookProtection (LockStructure p) (LockWindows p)
                        alg saltValue hashValue workbookProtectionSpinCount in
            (setWorkBook f1 (withWorkbookProtection wb2 (Some p')), None)
        end
      else (setWorkBook f1 wb2, None)
  end.

(** [UnprotectWorkbook]; the variadic [password] is a list. *)
Definition UnprotectWorkbook (rnd : string) (f : File)
    (password : list string) : File * option error :=
  let '(f1, wb, err) := workbookReader f in
  match err with
  | Some e => (f1, Some e)
  | None =>
      (* password verification *)
      let verification : option error :=
        match password with
        | [] => None
        | password0 :: _ =>
            match WorkbookProtection wb with
            | None => Some ErrUnprotectWorkbook
            | Some p =>
                if negb (String.eqb (WorkbookAlgorithmName p) "") then
                  (* check with given salt value *)
                  match genISOPasswdHash rnd password0
                          (WorkbookAlgorithmName p) (WorkbookSaltValue p)
                          (WorkbookSpinCount p) with
                  | inr e => Some e
                  | inl (hashValue, _) =>
                      if negb (String.eqb (WorkbookHashValue p) hashValue)
                      then Some ErrUnprotectWorkbookPassword
                      else None
                  end
                else None
            end
        end in
      match verification with
      | Some e => (f1, Some e)
      | None => (setWorkBook f1 (withWorkbookProtection wb None), err)
      end
  end.

(** [setWorkbook]: the error of [workbookReader] is dropped. *)
Definition setWorkbook (f : File) (name : string) (sheetID rid : Z) : File :=
  let '(f1, wb, _) := workbookReader f in
  setWorkBook f1
    (withSheets wb
       (Sheets wb ++ [mkSheet name sheetID ("rId" +:+ strconv.Itoa rid)])%list).

(** For the statements about the operations on a workbook already read:
    the properties record [SetWorkbookProps] leaves, and the protection
    record and error [ProtectWorkbook] leaves. *)
Definition mergedProps (pr : option xlsxWorkbookPr)
    (opts : option WorkbookPropsOptions) : xlsxWorkbookPr :=
  let pr0 := default new_xlsxWorkbookPr pr in
  match opts with
  | None => pr0
  | Some o =>
      mkWorkbookPr (default (Date1904 pr0) (optDate1904 o))
                   (default (FilterPrivacy pr0) (optFilterPrivacy o))
                   (default (CodeName pr0) (optCodeName o))
  end.

Definition protectionFor (rnd : string)
    (opts : option WorkbookProtectionOptions)
  : xlsxWorkbookProtection * option error :=
  let o := default (mkProtectionOptions "" "" false false) opts in
  if String.eqb (Password o) "" then (flagsOnly o, None)
  else
    match genISOPasswdHash rnd (Password o) (algorithmOf o) ""
            workbookProtectionSpinCount with
    | inr e => (flagsOnly o, Some e)
    | inl (hashValue, saltValue) =>
        (mkWorkbookProtection (optLockStructure o) (optLockWindows o)
           (algorithmOf o) saltValue hashValue workbookProtectionSpinCount,
         None)
    end.

End Workbook.

(** Modelled from the spec: the contract of the hash collaborator
    [genISOPasswdHash], which is not in this file.  Verification
    "recompute[s] the hash using the stored salt, algorithm, and spin
    count", and "verifying with the same password and a freshly
    independent hash computation using the stored salt/spin count, must
    match": the derivation made with a fresh salt can be repeated with the
    salt it returned, and gives the same hash. *)
Class HashContract {C : Collaborators} : Prop := {
  hash_rederive :
    forall r p a n h s,
      genISOPasswdHash r p a "" n = inl (h, s) ->
      forall r', exists s', genISOPasswdHash r' p a s n = inl (h, s')
}.

(** ** Plain path elements

    The names a part path is made of: not empty, without a separator, and
    neither [.] nor [..]. *)
Definition plainElement (e : string) : bool :=
  negb (String.eqb e "") && negb (filepath.hasSeparator e)
  && negb (String.eqb e ".") && negb (String.eqb e "..").

(** ** A small instance of the collaborators, to run the operations on
    concrete files *)

Module Sample.

Definition decode (content : string) : xlsxWorkbook * option error :=
  if String.eqb content "" then (new_xlsxWorkbook, Some io_EOF)
  else if String.eqb content "<workbook></workbook>"
  then (new_xlsxWorkbook, None)
  else if String.eqb content "<workbook><workbookPr></workbookPr><sheets"
  then (mkWorkbook (Some new_xlsxWorkbookPr) None [],
        Some (DecodeError "XML syntax error on line 1: unexpected EOF"))
  else (new_xlsxWorkbook, Some (DecodeError "XML syntax error"))%string.

Definition algorithms : list string :=
  ["XOR"; "MD4"; "MD5"; "SHA-1"; "SHA-256"; "SHA-384"; "SHA-512"].

Definition hash (rnd passwd hashAlgorithm salt : string) (spinCount : Z)
  : (string * string) + error :=
  if existsb (String.eqb hashAlgorithm) algorithms then
    let s := if String.eqb salt "" then "salt-" +:+ rnd else salt in
    inl (s +:+ "$" +:+ hashAlgorithm +:+ "$" +:+ passwd, s)
  else inr ErrUnsupportedHashAlgorithm.

Definition collaborators : Collaborators := {|
  SourceRelationshipOfficeDocument :=
    "http://schemas.openxmlformats.org/officeDocument/2006/relationships/officeDocument";
  SourceRelationship :=
    mkAttr "xmlns" "r"
      "http://schemas.openxmlformats.org/officeDocument/2006/relationships";
  workbookProtectionSpinCount := 100000;
  namespaceStrictToTransitional := fun content => content;
  xmlDecode := decode;
  getRootElement := fun _ => [];
  addNameSpaces := fun m path ns =>
    <[path := (default [] (m !! path) ++ [ns])%list]> m;
  genISOPasswdHash := hash
|}.

(** A hash collaborator with a digest of two bytes: the hash keeps the
    first two bytes of the password only. *)
Definition firstTwo (passwd : string) : string :=
  match passwd with
  | String a (String b _) => String a (String b EmptyString)
  | _ => passwd
  end.

Definition shortHash (rnd passwd hashAlgorithm salt : string) (spinCount : Z)
  : (string * string) + error :=
  if existsb (String.eqb hashAlgorithm) algorithms then
    let s := if String.eqb salt "" then "salt-" +:+ rnd else salt in
    inl (s +:+ "$" +:+ hashAlgorithm +:+ "$" +:+ firstTwo passwd, s)
  else inr ErrUnsupportedHashAlgorithm.

Definition shortCollaborators : Collaborators := {|
  SourceRelationshipOfficeDocument :=
    SourceRelationshipOfficeDocument (Collaborators := collaborators);
  SourceRelationship := SourceRelationship (Collaborators := collaborators);
  workbookProtectionSpinCount := 100000;
  namespaceStrictToTransitional := fun content => content;
  xmlDecode := decode;
  getRootElement := fun _ => [];
  addNameSpaces := addNameSpaces (Collaborators := collaborators);
  genISOPasswdHash := shortHash
|}.

Definition relsTable : gmap string (list xlsxRelationship) :=
  {[ "_rels/.rels" :=
       [ mkRelationship "rId3"
           "docProps/app.xml"
           "http://schemas.openxmlformats.org/officeDocument/2006/relationships/extended-properties";
         mkRelationship "rId1"
           "/xl/workbook.xml"
           "http://schemas.openxmlformats.org/officeDocument/2006/relationships/officeDocument" ] ]}.

(** A package with the workbook at its root, and one with no
    relationship to an office document. *)
Definition rootWorkbook : File :=
  mkFile None ∅ ∅
    {[ "_rels/.rels" :=
         [ mkRelationship "rId1" "workbook.xml"
             "http://schemas.openxmlformats.org/officeDocument/2006/relationships/officeDocument" ] ]}.

Definition noDocument : File :=
  mkFile None ∅ ∅
    {[ "_rels/.rels" :=
         [ mkRelationship "rId3" "docProps/app.xml"
             "http://schemas.openxmlformats.org/officeDocument/2006/relationships/extended-properties" ] ]}.

(** A file whose workbook part is absent, not yet read. *)
Definition emptyPart : File := mkFile None ∅ ∅ relsTable.

(** A file whose workbook part cannot be parsed, not yet read. *)
Definition brokenPart : File :=
  mkFile None ∅
    {[ "xl/workbook.xml" := "<workbook><workbookPr></workbookPr><sheets" ]}
    relsTable.

(** A protected workbook with hash material, already read. *)
Definition keyed : xlsxWorkbook :=
  mkWorkbook None
    (Some (mkWorkbookProtection true true "SHA-512" "c2FsdA==" "aGFzaA==" 100000))
    [mkSheet "Sheet1" 1 "rId1"].

Definition keyedFile : File := mkFile (Some keyed) ∅ ∅ relsTable.

(** A workbook locked without a password, and one with properties, both
    already read. *)
Definition locked : xlsxWorkbook :=
  mkWorkbook None (Some (mkWorkbookProtection true false "" "" "" 0))
    [mkSheet "Sheet1" 1 "rId1"].

Definition lockedFile : File := mkFile (Some locked) ∅ ∅ relsTable.

Definition dated : xlsxWorkbook :=
  mkWorkbook (Some (mkWorkbookPr true false "ThisWorkbook")) None
    [mkSheet "Sheet1" 1 "rId1"].

Definition datedFile : File := mkFile (Some dated) ∅ ∅ relsTable.

(** A file whose workbook part is well formed, not yet read. *)
Definition freshPart : File :=
  mkFile None ∅ {[ "xl/workbook.xml" := "<workbook></workbook>" ]} relsTable.

(** An unprotected workbook without properties, already read. *)
Definition plain : xlsxWorkbook :=
  mkWorkbook None None [mkSheet "Sheet1" 1 "rId1"].

Definition plainFile : File := mkFile (Some plain) ∅ ∅ relsTable.

End Sample.

(** ** Go's library functions on samples *)

Example Clean_samples :
  map filepath.Clean
    ["a//b/./c/.."; "/../a"; "../../x/.."; "xl/"; ""; "/"; "a/.."; "a/../..";
     "/a/../.."; "a/b/../../../c"; "./a"; "//a//"; "a/./b/"]
  = ["a/b"; "/a"; "../.."; "xl"; "."; "/"; "."; "..";
     "/"; "../c"; "a"; "/a"; "a/b"].
Proof. reflexivity. Qed.

Example Dir_samples :
  map filepath.Dir
    ["xl/workbook.xml"; "workbook.xml"; "/workbook.xml"; ""; "a/b/c"; "a/"; "a//b"]
  = ["xl"; "."; "/"; "."; "a/b"; "a"; "a"].
Proof. reflexivity. Qed.

Example Base_samples :
  map filepath.Base ["xl/workbook.xml"; "workbook.xml"; ""; "//"; "a/b/"]
  = ["workbook.xml"; "workbook.xml"; "."; "/"; "b"].
Proof. reflexivity. Qed.

Example Itoa_samples :
  map strconv.Itoa [3; 0; -12; 1048576] = ["3"; "0"; "-12"; "1048576"].
Proof. reflexivity. Qed.

Example decimalValue_samples :
  map strconv.decimalValue ["3"; "0"; "-12"] = [Some 3; Some 0; Some (-12)].
Proof. reflexivity. Qed.

Example getWorkbookPath_sample :
  @getWorkbookPath Sample.collaborators Sample.emptyPart = "xl/workbook.xml".
Proof. vm_compute. reflexivity. Qed.

Example workbookReader_sample :
  @workbookReader Sample.collaborators Sample.brokenPart
  = (mkFile (Some (mkWorkbook (Some new_xlsxWorkbookPr) None []))
       {[ "xl/workbook.xml" := [SourceRelationship (Collaborators:=Sample.collaborators)] ]}
       (Pkg Sample.brokenPart) Sample.relsTable,
     mkWorkbook (Some new_xlsxWorkbookPr) None [],
     Some (DecodeError "XML syntax error on line 1: unexpected EOF")).
Proof. vm_compute. reflexivity. Qed.

(** ** The caching reader *)

Section Reader.

Context {C : Collaborators}.

Lemma setWorkBook_same (f : File) (wb : xlsxWorkbook) :
  WorkBook f = Some wb -> setWorkBook f wb = f.
Proof. destruct f as [w a p r]; simpl; intros ->; reflexivity. Qed.

Lemma readXML_setWorkBook f wb path :
  readXML (setWorkBook f wb) path = readXML f path.
Proof. reflexivity. Qed.

Lemma readXML_setXmlAttr f m path :
  readXML (setXmlAttr f m) path = readXML f path.
Proof. reflexivity. Qed.

(** A workbook already read is returned as it is, with no error. *)
Lemma workbookReader_cached (f : File) (wb : xlsxWorkbook) :
  WorkBook f = Some wb -> workbookReader f = (f, wb, None).
Proof. unfold workbookReader; intros ->; reflexivity. Qed.

(** On the first read the decoder runs on the content of the part at the
    workbook path, and its workbook and error are what is returned. *)
Lemma workbookReader_first (f : File) :
  WorkBook f = None ->
  exists attrs,
    workbookReader f
    = (mkFile (Some (xmlDecode (namespaceStrictToTransitional
                                  (readXML f (getWorkbookPath f)))).1)
              attrs (Pkg f) (Relationships f),
       (xmlDecode (namespaceStrictToTransitional
                     (readXML f (getWorkbookPath f)))).1,
       (xmlDecode (namespaceStrictToTransitional
                     (readXML f (getWorkbookPath f)))).2).
Proof.
  intros Hnone. unfold workbookReader. rewrite Hnone.
  set (wbPath := getWorkbookPath f).
  set (f1 := setWorkBook f new_xlsxWorkbook).
  destruct (xmlAttr f1 !! wbPath) as [l|] eqn:Hattr; cbn zeta; subst f1.
  - rewrite readXML_setWorkBook.
    destruct (xmlDecode _) as [wb err].
    exists (xmlAttr f).
    destruct err as [e|]; [destruct (negb (is_EOF e))|]; reflexivity.
  - rewrite !readXML_setXmlAttr, readXML_setWorkBook.
    destruct (xmlDecode _) as [wb err].
    eexists.
    destruct err as [e|]; [destruct (negb (is_EOF e))|]; reflexivity.
Qed.

(** Whatever happens, the workbook returned is the one the file holds
    afterwards. *)
Lemma workbookReader_installs (f f1 : File) wb err :
  workbookReader f = (f1, wb, err) -> WorkBook f1 = Some wb.
Proof.
  destruct (WorkBook f) as [wb0|] eqn:Hwb.
  - rewrite (workbookReader_cached _ _ Hwb). intros [= <- <- <-]. exact Hwb.
  - destruct (workbookReader_first _ Hwb) as [attrs ->].
    intros [= <- <- <-]. reflexivity.
Qed.

End Reader.

Section ReaderClaims.

Context {C : Collaborators}.

(** What [workbookReader] does on its first call, given what the decoder
    yields on the content of the workbook part. *)
Lemma workbookReader_decoded (f : File) (wb : xlsxWorkbook) err :
  WorkBook f = None ->
  xmlDecode (namespaceStrictToTransitional (readXML f (getWorkbookPath f)))
    = (wb, err) ->
  exists f1,
    workbookReader f = (f1, wb, err) /\
    WorkBook f1 = Some wb /\
    Pkg f1 = Pkg f /\
    workbookReader f1 = (f1, wb, None).
Proof.
  intros Hnone Hdec.
  destruct (workbookReader_first f Hnone) as [attrs Hrd].
  rewrite Hdec in Hrd; simpl in Hrd.
  eexists; split; [exact Hrd|].
  split; [reflexivity|]. split; [reflexivity|].
  apply workbookReader_cached; reflexivity.
Qed.

(** C4 (the code departs from it): when the workbook part is wholly empty
    the decoder yields [io.EOF]; the first call of [workbookReader] then
    installs the empty workbook but hands [io.EOF] to its caller as the
    error, since the last [return] passes [err] on; only the next call
    returns the workbook with no error. *)
Theorem workbookReader_empty_part_returns_EOF (f : File) (wb : xlsxWorkbook) :
  WorkBook f = None ->
  xmlDecode (namespaceStrictToTransitional (readXML f (getWorkbookPath f)))
    = (wb, Some io_EOF) ->
  exists f1,
    workbookReader f = (f1, wb, Some io_EOF) /\
    SetWorkbookProps f None = (f1, Some io_EOF) /\
    workbookReader f1 = (f1, wb, None).
Proof.
  intros Hnone Hdec.
  destruct (workbookReader_decoded f wb _ Hnone Hdec) as (f1 & Hrd & _ & _ & Hnext).
  exists f1. split; [exact Hrd|]. split; [|exact Hnext].
  unfold SetWorkbookProps. rewrite Hrd. reflexivity.
Qed.

(** C5 (amended): when the workbook part cannot be parsed, the first call
    of [workbookReader] surfaces the decoder's error to its caller, and
    the workbook the decoder was writing into is the one the file holds
    from then on: the next call returns it with no error, without
    reading the part again. *)
Theorem workbookReader_decode_error_is_cached
    (f : File) (wb : xlsxWorkbook) (e : error) :
  WorkBook f = None ->
  is_EOF e = false ->
  xmlDecode (namespaceStrictToTransitional (readXML f (getWorkbookPath f)))
    = (wb, Some e) ->
  exists f1,
    workbookReader f = (f1, wb, Some e) /\
    WorkBook f1 = Some wb /\
    workbookReader f1 = (f1, wb, None).
Proof.
  intros Hnone _ Hdec.
  destruct (workbookReader_decoded f wb _ Hnone Hdec) as (f1 & Hrd & Hwb & _ & Hnext).
  exists f1. auto.
Qed.

End ReaderClaims.

(** C4 at a file whose workbook part is absent. *)
Lemma workbookReader_empty_part_returns_EOF_witness :
  WorkBook Sample.emptyPart = None /\
  Sample.decode (readXML Sample.emptyPart "xl/workbook.xml")
    = (new_xlsxWorkbook, Some io_EOF) /\
  exists f1,
    @workbookReader Sample.collaborators Sample.emptyPart
      = (f1, new_xlsxWorkbook, Some io_EOF) /\
    @SetWorkbookProps Sample.collaborators Sample.emptyPart None
      = (f1, Some io_EOF) /\
    @workbookReader Sample.collaborators f1 = (f1, new_xlsxWorkbook, None).
Proof.
  split; [reflexivity|]. split; [reflexivity|].
  apply (@workbookReader_empty_part_returns_EOF Sample.collaborators
           Sample.emptyPart new_xlsxWorkbook); reflexivity.
Defined.

(** C5 as the spec has it fails: a part that cannot be parsed leaves the
    partly decoded workbook in the file, and the second call succeeds. *)
Lemma workbookReader_broken_part_counterexample :
  exists f1 wb,
    @workbookReader Sample.collaborators Sample.brokenPart
      = (f1, wb, Some (DecodeError "XML syntax error on line 1: unexpected EOF")) /\
    WorkBook f1 = Some (mkWorkbook (Some new_xlsxWorkbookPr) None []) /\
    WorkBook f1 <> None /\
    @workbookReader Sample.collaborators f1 = (f1, wb, None).
Proof.
  eexists; eexists.
  split; [vm_compute; reflexivity|].
  split; [reflexivity|]. split; [discriminate|].
  vm_compute; reflexivity.
Qed.

Lemma workbookReader_decode_error_is_cached_witness :
  WorkBook Sample.brokenPart = None /\
  exists f1,
    @workbookReader Sample.collaborators Sample.brokenPart
      = (f1, mkWorkbook (Some new_xlsxWorkbookPr) None [],
         Some (DecodeError "XML syntax error on line 1: unexpected EOF")) /\
    WorkBook f1 = Some (mkWorkbook (Some new_xlsxWorkbookPr) None []) /\
    @workbookReader Sample.collaborators f1
      = (f1, mkWorkbook (Some new_xlsxWorkbookPr) None [], None).
Proof.
  split; [reflexivity|].
  apply (@workbookReader_decode_error_is_cached Sample.collaborators
           Sample.brokenPart); reflexivity.
Defined.

(** ** Protection *)

Section Protection.

Context {C : Collaborators}.

Lemma withWorkbookProtection_twice wb p q :
  withWorkbookProtection (withWorkbookProtection wb p) q
  = withWorkbookProtection wb q.
Proof. reflexivity. Qed.

Lemma eqb_empty_false (s : string) : s <> "" -> String.eqb s "" = false.
Proof. intros Hs. apply String.eqb_neq. exact Hs. Qed.

(** [ProtectWorkbook] on a workbook already read, by cases on the
    password and on the answer of the hash collaborator. *)
Lemma ProtectWorkbook_cached rnd (f : File) (wb : xlsxWorkbook) o :
  WorkBook f = Some wb ->
  ProtectWorkbook rnd f (Some o)
  = if String.eqb (Password o) "" then
      (setWorkBook f (withWorkbookProtection wb (Some (flagsOnly o))), None)
    else
      match genISOPasswdHash rnd (Password o) (algorithmOf o) ""
              workbookProtectionSpinCount with
      | inr e =>
          (setWorkBook f (withWorkbookProtection wb (Some (flagsOnly o))),
           Some e)
      | inl (hashValue, saltValue) =>
          (setWorkBook f
             (withWorkbookProtection wb
                (Some (mkWorkbookProtection (optLockStructure o)
                         (optLockWindows o) (algorithmOf o) saltValue
                         hashValue workbookProtectionSpinCount))),
           None)
      end.
Proof.
  intros Hwb. unfold ProtectWorkbook.
  rewrite (workbookReader_cached f wb Hwb).
  fold (flagsOnly o). fold (algorithmOf o).
  destruct (String.eqb (Password o) ""); simpl.
  - destruct (WorkbookProtection wb); reflexivity.
  - destruct (genISOPasswdHash _ _ _ _ _) as [[h s]|e];
      destruct (WorkbookProtection wb); reflexivity.
Qed.

(** [UnprotectWorkbook] with no password on a workbook already read. *)
Lemma UnprotectWorkbook_cached_nil rnd (f : File) (wb : xlsxWorkbook) :
  WorkBook f = Some wb ->
  UnprotectWorkbook rnd f []
  = (setWorkBook f (withWorkbookProtection wb None), None).
Proof.
  intros Hwb. unfold UnprotectWorkbook.
  rewrite (workbookReader_cached f wb Hwb). reflexivity.
Qed.

Lemma withWorkbookProtection_same wb :
  withWorkbookProtection wb (WorkbookProtection wb) = wb.
Proof. destruct wb; reflexivity. Qed.

(** C1 (amended): when [ProtectWorkbook] is called with a non-empty
    password and the hash collaborator rejects the algorithm name, the
    error is surfaced to the caller, but by then the protection record
    has been replaced: it holds the lock flags of the options and no hash
    material (empty algorithm name, salt and hash, spin count 0).
    Properties and sheets are as before. *)
Theorem ProtectWorkbook_rejected_algorithm
    rnd (f : File) (wb : xlsxWorkbook) (o : WorkbookProtectionOptions) e :
  WorkBook f = Some wb ->
  Password o <> "" ->
  genISOPasswdHash rnd (Password o) (algorithmOf o) ""
    workbookProtectionSpinCount = inr e ->
  ProtectWorkbook rnd f (Some o)
  = (setWorkBook f
       (mkWorkbook (WorkbookPr wb)
          (Some (mkWorkbookProtection (optLockStructure o) (optLockWindows o)
                   "" "" "" 0))
          (Sheets wb)),
     Some e).
Proof.
  intros Hwb Hpw Hrej.
  rewrite (ProtectWorkbook_cached rnd f wb o Hwb).
  rewrite (eqb_empty_false _ Hpw), Hrej. reflexivity.
Qed.

(** C2 (amended): on a workbook whose protection record carries hash
    material, [ProtectWorkbook] with an empty password (or with no
    options at all) succeeds, sets the lock flags from the options and
    computes no hash, whatever the hash collaborator is; the record it
    leaves is a new one, so the hash material that was there is gone:
    algorithm name, salt and hash are empty and the spin count is 0. *)
Theorem ProtectWorkbook_empty_password
    rnd (f : File) (wb : xlsxWorkbook) (o : WorkbookProtectionOptions) :
  WorkBook f = Some wb ->
  Password o = "" ->
  ProtectWorkbook rnd f (Some o)
  = (setWorkBook f
       (mkWorkbook (WorkbookPr wb)
          (Some (mkWorkbookProtection (optLockStructure o) (optLockWindows o)
                   "" "" "" 0))
          (Sheets wb)),
     None)
  /\ ProtectWorkbook rnd f None
     = (setWorkBook f
          (mkWorkbook (WorkbookPr wb)
             (Some (mkWorkbookProtection false false "" "" "" 0))
             (Sheets wb)),
        None).
Proof.
  intros Hwb Hpw. split.
  - rewrite (ProtectWorkbook_cached rnd f wb o Hwb), Hpw. reflexivity.
  - unfold ProtectWorkbook. rewrite (workbookReader_cached f wb Hwb).
    simpl. destruct (WorkbookProtection wb); reflexivity.
Qed.

(** C7: on a workbook with no protection record, [UnprotectWorkbook]
    with a password fails with [ErrUnprotectWorkbook] and the file is as
    before, whereas the form with no password succeeds on the same
    file, which it leaves as before too. *)
Theorem UnprotectWorkbook_not_protected
    rnd (f : File) (wb : xlsxWorkbook) (password0 : string) (more : list string) :
  WorkBook f = Some wb ->
  WorkbookProtection wb = None ->
  UnprotectWorkbook rnd f (password0 :: more) = (f, Some ErrUnprotectWorkbook)
  /\ UnprotectWorkbook rnd f [] = (f, None).
Proof.
  intros Hwb Hnone. split.
  - unfold UnprotectWorkbook. rewrite (workbookReader_cached f wb Hwb).
    rewrite Hnone. reflexivity.
  - rewrite (UnprotectWorkbook_cached_nil rnd f wb Hwb).
    rewrite <- Hnone, withWorkbookProtection_same.
    rewrite (setWorkBook_same f wb Hwb). reflexivity.
Qed.

(** C8: [UnprotectWorkbook] with no password succeeds on every workbook
    already read, with or without a protection record and whatever hash
    material the record holds; the workbook has no protection record
    afterwards, its other fields are as before, and when there was no
    record the file is unchanged. *)
Theorem UnprotectWorkbook_no_password rnd (f : File) (wb : xlsxWorkbook) :
  WorkBook f = Some wb ->
  UnprotectWorkbook rnd f []
  = (setWorkBook f (mkWorkbook (WorkbookPr wb) None (Sheets wb)), None)
  /\ (WorkbookProtection wb = None -> UnprotectWorkbook rnd f [] = (f, None)).
Proof.
  intros Hwb. split.
  - apply UnprotectWorkbook_cached_nil; exact Hwb.
  - intros Hnone. rewrite (UnprotectWorkbook_cached_nil rnd f wb Hwb).
    rewrite <- Hnone, withWorkbookProtection_same.
    rewrite (setWorkBook_same f wb Hwb). reflexivity.
Qed.

End Protection.

Section ProtectThenUnprotect.

Context {C : Collaborators} {HC : HashContract}.

Lemma algorithmOf_nonempty o : String.eqb (algorithmOf o) "" = false.
Proof.
  unfold algorithmOf.
  destruct (String.eqb (AlgorithmName o) "") eqn:E; [reflexivity | exact E].
Qed.



End ProtectThenUnprotect.

(** ** The sample collaborators keep the hash contract *)



(** The collaborator with the short digest keeps it too. *)
Lemma Sample_shortHash_contract : @HashContract Sample.shortCollaborators.
Proof.
  split; simpl.
  intros r p a n h s. unfold Sample.shortHash.
  destruct (existsb _ _); [|discriminate].
  intros [= <- <-] r'. exists ("salt-" +:+ r). reflexivity.
Qed.

(** ** The protection claims on concrete files *)

(** C1 as the spec has it fails: the algorithm name is rejected and the
    error returned, yet the record that held SHA-512 hash material now
    holds the new lock flags and nothing else. *)
Lemma ProtectWorkbook_rejected_algorithm_counterexample :
  exists f1,
    @ProtectWorkbook Sample.collaborators "0123456789abcdef" Sample.keyedFile
      (Some (mkProtectionOptions "ROT13" "secret" false true))
    = (f1, Some ErrUnsupportedHashAlgorithm) /\
    (WorkBook Sample.keyedFile ≫= WorkbookProtection)
    = Some (mkWorkbookProtection true true "SHA-512" "c2FsdA==" "aGFzaA==" 100000) /\
    (WorkBook f1 ≫= WorkbookProtection)
    = Some (mkWorkbookProtection false true "" "" "" 0) /\
    f1 <> Sample.keyedFile.
Proof.
  eexists. split; [vm_compute; reflexivity|].
  split; [reflexivity|]. split; [reflexivity|]. discriminate.
Qed.

Lemma ProtectWorkbook_rejected_algorithm_witness :
  WorkBook Sample.keyedFile = Some Sample.keyed /\
  Password (mkProtectionOptions "ROT13" "secret" false true) <> "" /\
  Sample.hash "0123456789abcdef" "secret" "ROT13" "" 100000
    = inr ErrUnsupportedHashAlgorithm /\
  @ProtectWorkbook Sample.collaborators "0123456789abcdef" Sample.keyedFile
    (Some (mkProtectionOptions "ROT13" "secret" false true))
  = (setWorkBook Sample.keyedFile
       (mkWorkbook None (Some (mkWorkbookProtection false true "" "" "" 0))
          [mkSheet "Sheet1" 1 "rId1"]),
     Some ErrUnsupportedHashAlgorithm).
Proof.
  split; [reflexivity|]. split; [discriminate|]. split; [reflexivity|].
  apply (@ProtectWorkbook_rejected_algorithm Sample.collaborators
           "0123456789abcdef" Sample.keyedFile Sample.keyed
           (mkProtectionOptions "ROT13" "secret" false true)
           ErrUnsupportedHashAlgorithm);
    [reflexivity | discriminate | reflexivity].
Defined.

(** C2 as the spec has it fails: with an empty password the lock flags
    are set, but the SHA-512 hash material that was stored is gone. *)
Lemma ProtectWorkbook_empty_password_counterexample :
  exists f1,
    @ProtectWorkbook Sample.collaborators "0123456789abcdef" Sample.keyedFile
      (Some (mkProtectionOptions "" "" true false))
    = (f1, None) /\
    (WorkBook Sample.keyedFile ≫= WorkbookProtection)
    = Some (mkWorkbookProtection true true "SHA-512" "c2FsdA==" "aGFzaA==" 100000) /\
    (WorkBook f1 ≫= WorkbookProtection)
    = Some (mkWorkbookProtection true false "" "" "" 0).
Proof.
  eexists. split; [vm_compute; reflexivity|].
  split; reflexivity.
Qed.

Lemma ProtectWorkbook_empty_password_witness :
  WorkBook Sample.keyedFile = Some Sample.keyed /\
  Password (mkProtectionOptions "" "" true false) = "" /\
  @ProtectWorkbook Sample.collaborators "0123456789abcdef" Sample.keyedFile
    (Some (mkProtectionOptions "" "" true false))
  = (setWorkBook Sample.keyedFile
       (mkWorkbook None (Some (mkWorkbookProtection true false "" "" "" 0))
          [mkSheet "Sheet1" 1 "rId1"]),
     None).
Proof.
  split; [reflexivity|]. split; [reflexivity|].
  apply (@ProtectWorkbook_empty_password Sample.collaborators
           "0123456789abcdef" Sample.keyedFile Sample.keyed
           (mkProtectionOptions "" "" true false));
    reflexivity.
Defined.



Lemma UnprotectWorkbook_not_protected_witness :
  WorkBook Sample.plainFile = Some Sample.plain /\
  WorkbookProtection Sample.plain = None /\
  @UnprotectWorkbook Sample.collaborators "0123456789abcdef" Sample.plainFile
    ["secret"] = (Sample.plainFile, Some ErrUnprotectWorkbook) /\
  @UnprotectWorkbook Sample.collaborators "0123456789abcdef" Sample.plainFile []
  = (Sample.plainFile, None).
Proof.
  split; [reflexivity|]. split; [reflexivity|].
  apply (@UnprotectWorkbook_not_protected Sample.collaborators
           "0123456789abcdef" Sample.plainFile Sample.plain "secret" []);
    reflexivity.
Defined.

Lemma UnprotectWorkbook_no_password_witness :
  WorkBook Sample.keyedFile = Some Sample.keyed /\
  @UnprotectWorkbook Sample.collaborators "0123456789abcdef" Sample.keyedFile []
  = (setWorkBook Sample.keyedFile
       (mkWorkbook None None [mkSheet "Sheet1" 1 "rId1"]), None).
Proof.
  split; [reflexivity|].
  apply (@UnprotectWorkbook_no_password Sample.collaborators
           "0123456789abcdef" Sample.keyedFile Sample.keyed).
  reflexivity.
Defined.

(** ** Paths *)

Section FilepathFacts.

Import filepath.

Lemma plainElement_inv e :
  plainElement e = true ->
  e <> "" /\ hasSeparator e = false /\ e <> "." /\ e <> "..".
Proof.
  unfold plainElement. rewrite !andb_true_iff, !negb_true_iff.
  intros [[[H1 H2] H3] H4].
  repeat split; try assumption; apply String.eqb_neq; assumption.
Qed.

Lemma elements_no_separator e :
  hasSeparator e = false -> elements e = [e].
Proof.
  induction e as [|c r IH]; simpl; [reflexivity|].
  intros Hs. apply orb_false_iff in Hs as [Hc Hr].
  rewrite Hc, (IH Hr). reflexivity.
Qed.

Lemma elements_app e rest :
  hasSeparator e = false ->
  elements (e +:+ String Separator rest) = e :: elements rest.
Proof.
  induction e as [|c r IH]; simpl; [reflexivity|].
  intros Hs. apply orb_false_iff in Hs as [Hc Hr].
  rewrite Hc, (IH Hr). reflexivity.
Qed.

Lemma elements_concat (e : string) (es : list string) :
  Forall (fun x => hasSeparator x = false) (e :: es) ->
  elements (String.concat "/" (e :: es)) = e :: es.
Proof.
  revert e. induction es as [|e' es IH]; intros e Hall.
  - simpl. apply elements_no_separator. inversion Hall; assumption.
  - inversion Hall as [|? ? He Hrest]; subst.
    change (String.concat "/" (e :: e' :: es))
      with (e +:+ String Separator (String.concat "/" (e' :: es))).
    rewrite (elements_app _ _ He), (IH _ Hrest). reflexivity.
Qed.

Lemma hasSeparator_app e rest :
  hasSeparator (e +:+ String Separator rest) = true.
Proof.
  induction e as [|c r IH]; simpl; [reflexivity|].
  rewrite IH. apply orb_true_r.
Qed.

Lemma upToLastSeparator_no_separator e :
  hasSeparator e = false -> upToLastSeparator e = "".
Proof.
  destruct e as [|c r]; simpl; [reflexivity|]. intros ->. reflexivity.
Qed.

Lemma upToLastSeparator_app e rest :
  upToLastSeparator (e +:+ String Separator rest)
  = e +:+ String Separator (upToLastSeparator rest).
Proof.
  induction e as [|c r IH]; simpl; [reflexivity|].
  rewrite hasSeparator_app, orb_true_r, IH. reflexivity.
Qed.

(** The directory part of [d1/.../dn/b] is [d1/.../dn/]. *)
Lemma upToLastSeparator_concat (d : string) (ds : list string) (b : string) :
  hasSeparator b = false ->
  upToLastSeparator (String.concat "/" ((d :: ds) ++ [b]))
  = String.concat "/" ((d :: ds) ++ [""]).
Proof.
  intros Hb. revert d. induction ds as [|d' ds IH]; intros d.
  - simpl app.
    change (String.concat "/" [d; b]) with (d +:+ String Separator b).
    rewrite upToLastSeparator_app, (upToLastSeparator_no_separator _ Hb).
    reflexivity.
  - change (String.concat "/" ((d :: d' :: ds) ++ [b]))
      with (d +:+ String Separator (String.concat "/" ((d' :: ds) ++ [b]))).
    rewrite upToLastSeparator_app, IH. reflexivity.
Qed.

Lemma cleanStep_plain rooted out e :
  plainElement e = true -> cleanStep rooted out e = e :: out.
Proof.
  intros He. destruct (plainElement_inv _ He) as (H1 & _ & H2 & H3).
  unfold cleanStep.
  rewrite (proj2 (String.eqb_neq _ _) H1), (proj2 (String.eqb_neq _ _) H2),
    (proj2 (String.eqb_neq _ _) H3).
  reflexivity.
Qed.

Lemma cleanStep_empty rooted out : cleanStep rooted out "" = out.
Proof. reflexivity. Qed.

Lemma fold_cleanStep_plain rooted (es out : list string) :
  Forall (fun e => plainElement e = true) es ->
  fold_left (cleanStep rooted) es out = (rev es ++ out)%list.
Proof.
  revert out. induction es as [|e es IH]; intros out Hall; [reflexivity|].
  inversion Hall as [|? ? He Hrest]; subst. simpl.
  rewrite (cleanStep_plain _ _ _ He), (IH _ Hrest), <- app_assoc.
  reflexivity.
Qed.

End FilepathFacts.

Section FilepathOnPartPaths.

Import filepath.

Lemma string_app_assoc (a b c : string) : (a +:+ b) +:+ c = a +:+ (b +:+ c).
Proof.
  induction a as [|x a IH]; [reflexivity|].
  change (String x ((a +:+ b) +:+ c) = String x (a +:+ (b +:+ c))).
  f_equal; exact IH.
Qed.

Lemma plain_no_separator (es : list string) :
  Forall (fun e => plainElement e = true) es ->
  Forall (fun e => hasSeparator e = false) es.
Proof.
  intros Hall. eapply Forall_impl; [exact Hall|].
  intros e He. apply (plainElement_inv e He).
Qed.

(** A path whose first element is plain starts with a character that is
    no separator. *)
Lemma concat_plain_head (d : string) (ds : list string) :
  plainElement d = true ->
  exists c rest,
    String.concat "/" (d :: ds) = String c rest /\ IsPathSeparator c = false.
Proof.
  intros Hd. destruct (plainElement_inv _ Hd) as (Hne & Hsep & _).
  destruct d as [|c d']; [contradiction|].
  simpl in Hsep. apply orb_false_iff in Hsep as [Hc _].
  exists c. destruct ds; simpl; eauto.
Qed.

(** [Clean] of the directory part [d1/.../dn/] is [d1/.../dn]. *)
Lemma Clean_directory (d : string) (ds : list string) :
  Forall (fun e => plainElement e = true) (d :: ds) ->
  Clean (String.concat "/" ((d :: ds) ++ [""])) = String.concat "/" (d :: ds).
Proof.
  intros Hall.
  assert (Hd : plainElement d = true) by (inversion Hall; assumption).
  destruct (concat_plain_head d (ds ++ [""]) Hd) as (c & rest & Hpath & Hc).
  destruct (concat_plain_head d ds Hd) as (c' & rest' & Hbody & _).
  assert (Hel : elements (String.concat "/" ((d :: ds) ++ [""]))
                = ((d :: ds) ++ [""])%list).
  { apply (elements_concat d (ds ++ [""])).
    constructor; [apply (plainElement_inv d Hd)|].
    apply Forall_app_2; [|repeat constructor].
    apply plain_no_separator. inversion Hall; assumption. }
  unfold Clean. simpl app in *. rewrite Hpath. rewrite <- Hpath.
  rewrite Hc, Hel.
  change (d :: (ds ++ [""]))%list with ((d :: ds) ++ [""])%list.
  rewrite fold_left_app, (fold_cleanStep_plain _ _ _ Hall).
  cbn [fold_left]. rewrite cleanStep_empty.
  rewrite app_nil_r, rev_involutive, Hbody. reflexivity.
Qed.

Lemma Dir_plain_name (b : string) :
  hasSeparator b = false -> Dir b = ".".
Proof.
  intros Hb. unfold Dir. rewrite (upToLastSeparator_no_separator _ Hb).
  reflexivity.
Qed.

Lemma Dir_part_path (d : string) (ds : list string) (b : string) :
  Forall (fun e => plainElement e = true) (d :: ds) ->
  hasSeparator b = false ->
  Dir (String.concat "/" ((d :: ds) ++ [b])) = String.concat "/" (d :: ds).
Proof.
  intros Hall Hb. unfold Dir.
  rewrite (upToLastSeparator_concat d ds b Hb).
  apply Clean_directory; assumption.
Qed.

Lemma stripTrailingSeparators_no_separator b :
  hasSeparator b = false -> stripTrailingSeparators b = b.
Proof.
  induction b as [|c r IH]; simpl; [reflexivity|].
  intros Hs. apply orb_false_iff in Hs as [Hc Hr].
  rewrite Hc, (IH Hr). reflexivity.
Qed.

Lemma stripTrailingSeparators_app x b :
  b <> "" -> hasSeparator b = false ->
  stripTrailingSeparators (x +:+ b) = x +:+ b.
Proof.
  intros Hne Hb. induction x as [|c x IH]; simpl.
  - apply stripTrailingSeparators_no_separator; assumption.
  - rewrite IH.
    assert (Hx : String.eqb (x +:+ b) "" = false).
    { apply String.eqb_neq. destruct x; simpl; [assumption | discriminate]. }
    rewrite Hx, andb_false_r. reflexivity.
Qed.

Lemma concat_snoc (ds : list string) (b : string) :
  exists x, String.concat "/" (ds ++ [b]) = x +:+ b.
Proof.
  induction ds as [|d ds [x IH]].
  - exists "". reflexivity.
  - exists (d +:+ "/" +:+ x).
    rewrite !string_app_assoc, <- IH. destruct ds; reflexivity.
Qed.

Lemma Base_part_path (ds : list string) (b : string) :
  Forall (fun e => plainElement e = true) ds ->
  plainElement b = true ->
  Base (String.concat "/" (ds ++ [b])) = b.
Proof.
  intros Hall Hb. destruct (plainElement_inv _ Hb) as (Hne & Hsep & _).
  destruct (concat_snoc ds b) as [x Hx].
  unfold Base.
  assert (Hpath : String.eqb (String.concat "/" (ds ++ [b])) "" = false).
  { rewrite Hx. apply String.eqb_neq.
    destruct x; simpl; [assumption | discriminate]. }
  rewrite Hpath, Hx, (stripTrailingSeparators_app _ _ Hne Hsep), <- Hx.
  assert (Hel : elements (String.concat "/" (ds ++ [b])) = (ds ++ [b])%list).
  { assert (Hns : Forall (fun e => hasSeparator e = false) (ds ++ [b])).
    { apply Forall_app_2; [apply plain_no_separator; assumption|].
      repeat constructor. assumption. }
    destruct (ds ++ [b])%list as [|e es] eqn:E.
    - destruct ds; discriminate.
    - apply elements_concat. assumption. }
  rewrite Hel, last_snoc. simpl.
  rewrite (proj2 (String.eqb_neq _ _) Hne). reflexivity.
Qed.

End FilepathOnPartPaths.

Section PathClaims.

Context {C : Collaborators}.

Lemma TrimPrefix_separator (t : string) :
  strings.TrimPrefix (String filepath.Separator t) "/" = t.
Proof. reflexivity. Qed.

Lemma TrimPrefix_no_separator (c : ascii) (t : string) :
  filepath.IsPathSeparator c = false ->
  strings.TrimPrefix (String c t) "/" = String c t.
Proof.
  unfold filepath.IsPathSeparator, filepath.Separator, strings.TrimPrefix.
  intros Hc. cbn [strings.strip]. rewrite Ascii.eqb_sym, Hc. reflexivity.
Qed.

Lemma firstOfficeDocument_none (rels : list xlsxRelationship) :
  Forall otherType rels -> firstOfficeDocument rels = "".
Proof.
  induction 1 as [|rel rels Hrel _ IH]; simpl; [reflexivity|].
  rewrite (proj2 (String.eqb_neq _ _) Hrel). exact IH.
Qed.

Lemma firstOfficeDocument_first (pre post : list xlsxRelationship) rel :
  Forall otherType pre ->
  Type_ rel = SourceRelationshipOfficeDocument ->
  firstOfficeDocument (pre ++ rel :: post) = strings.TrimPrefix (Target rel) "/".
Proof.
  intros Hpre Hrel. induction Hpre as [|r pre Hr _ IH]; simpl.
  - rewrite Hrel, String.eqb_refl. reflexivity.
  - rewrite (proj2 (String.eqb_neq _ _) Hr). exact IH.
Qed.

(** The relationship part of [d1/.../dn/b] is [d1/.../dn/_rels/b.rels],
    and [_rels/b.rels] when the workbook is at the root. *)
Lemma getWorkbookRelsPath_convention (f : File) (ds : list string) (b : string) :
  Forall (fun e => plainElement e = true) ds ->
  plainElement b = true ->
  getWorkbookPath f = String.concat "/" (ds ++ [b]) ->
  getWorkbookRelsPath f = String.concat "/" (ds ++ ["_rels"; b +:+ ".rels"]).
Proof.
  intros Hds Hb Hpath. unfold getWorkbookRelsPath. rewrite Hpath.
  rewrite (Base_part_path ds b Hds Hb).
  destruct (plainElement_inv _ Hb) as (_ & Hsep & _).
  destruct ds as [|d ds].
  - simpl app. change (String.concat "/" [b]) with b.
    rewrite (Dir_plain_name b Hsep). reflexivity.
  - rewrite (Dir_part_path d ds b Hds Hsep).
    assert (Hd : plainElement d = true) by (inversion Hds; assumption).
    destruct (concat_plain_head d ds Hd) as (c & rest & Hdir & Hc).
    assert (Hnot : String.eqb (String.concat "/" (d :: ds)) "." = false).
    { apply String.eqb_neq. intros Heq.
      assert (Hel : filepath.elements (String.concat "/" (d :: ds)) = d :: ds).
      { apply elements_concat, plain_no_separator, Hds. }
      rewrite Heq in Hel. injection Hel as <- _.
      discriminate Hd. }
    rewrite Hnot, Hdir.
    change (String c rest +:+ "/_rels/" +:+ b +:+ ".rels")
      with (String c (rest +:+ "/_rels/" +:+ b +:+ ".rels")).
    rewrite (TrimPrefix_no_separator _ _ Hc).
    change (String c (rest +:+ "/_rels/" +:+ b +:+ ".rels"))
      with (String c rest +:+ "/_rels/" +:+ b +:+ ".rels").
    rewrite <- Hdir. clear.
    revert d. induction ds as [|d' ds IH]; intros d; [reflexivity|].
    change (String.concat "/" ((d :: d' :: ds) ++ ["_rels"; b +:+ ".rels"]))
      with (d +:+ "/" +:+
            String.concat "/" ((d' :: ds) ++ ["_rels"; b +:+ ".rels"])).
    rewrite <- IH.
    change (String.concat "/" (d :: d' :: ds))
      with (d +:+ "/" +:+ String.concat "/" (d' :: ds)).
    rewrite !string_app_assoc. reflexivity.
Qed.

(** C9: [getWorkbookPath] is the empty string when the package has no
    top-level relationship table or the table has no relationship to an
    office document; otherwise it is the target of the first such
    relationship without its leading separator.  [getWorkbookRelsPath]
    puts [_rels/] before the last element of that path and [.rels] after
    it: [xl/_rels/workbook.xml.rels] for [xl/workbook.xml], and
    [_rels/workbook.xml.rels], with no directory before it, for
    [workbook.xml]. *)
Theorem workbook_paths (f : File) :
  (relsReader f "_rels/.rels" = None -> getWorkbookPath f = "") /\
  (forall rels,
      relsReader f "_rels/.rels" = Some rels ->
      Forall otherType rels ->
      getWorkbookPath f = "") /\
  (forall (pre : list xlsxRelationship) rel post,
      relsReader f "_rels/.rels" = Some (pre ++ rel :: post)%list ->
      Forall otherType pre ->
      Type_ rel = SourceRelationshipOfficeDocument ->
      getWorkbookPath f = strings.TrimPrefix (Target rel) "/" /\
      (forall t, Target rel = String filepath.Separator t ->
                 getWorkbookPath f = t) /\
      (forall c t, Target rel = String c t ->
                   filepath.IsPathSeparator c = false ->
                   getWorkbookPath f = Target rel)) /\
  (forall (ds : list string) (b : string),
      Forall (fun e => plainElement e = true) ds ->
      plainElement b = true ->
      getWorkbookPath f = String.concat "/" (ds ++ [b]) ->
      getWorkbookRelsPath f
      = String.concat "/" (ds ++ ["_rels"; b +:+ ".rels"])) /\
  (getWorkbookPath f = "xl/workbook.xml" ->
   getWorkbookRelsPath f = "xl/_rels/workbook.xml.rels") /\
  (getWorkbookPath f = "workbook.xml" ->
   getWorkbookRelsPath f = "_rels/workbook.xml.rels").
Proof.
  split; [|split; [|split; [|split; [|split]]]].
  - unfold getWorkbookPath. intros ->. reflexivity.
  - unfold getWorkbookPath. intros rels -> Hall.
    apply firstOfficeDocument_none; exact Hall.
  - unfold getWorkbookPath. intros pre rel post -> Hpre Hrel.
    rewrite (firstOfficeDocument_first pre post rel Hpre Hrel).
    split; [reflexivity|]. split.
    + intros t ->. apply TrimPrefix_separator.
    + intros c t -> Hc. apply TrimPrefix_no_separator; exact Hc.
  - intros ds b. apply getWorkbookRelsPath_convention.
  - intros Hpath.
    apply (getWorkbookRelsPath_convention f ["xl"] "workbook.xml");
      [repeat constructor | reflexivity | exact Hpath].
  - intros Hpath.
    apply (getWorkbookRelsPath_convention f [] "workbook.xml");
      [constructor | reflexivity | exact Hpath].
Qed.

End PathClaims.

Lemma workbook_paths_witness :
  @getWorkbookPath Sample.collaborators Sample.noDocument = "" /\
  @getWorkbookPath Sample.collaborators Sample.emptyPart = "xl/workbook.xml" /\
  @getWorkbookRelsPath Sample.collaborators Sample.emptyPart
    = "xl/_rels/workbook.xml.rels" /\
  @getWorkbookRelsPath Sample.collaborators Sample.rootWorkbook
    = "_rels/workbook.xml.rels".
Proof.
  destruct (@workbook_paths Sample.collaborators Sample.noDocument)
    as (_ & Hnone & _).
  destruct (@workbook_paths Sample.collaborators Sample.emptyPart)
    as (_ & _ & Hfirst & _ & Hxl & _).
  destruct (@workbook_paths Sample.collaborators Sample.rootWorkbook)
    as (_ & _ & _ & _ & _ & Hroot).
  split.
  { eapply Hnone; [vm_compute; reflexivity|].
    repeat constructor; discriminate. }
  split.
  { refine (proj1 (proj2 (Hfirst [_] _ [] _ _ _)) "xl/workbook.xml" _);
      [vm_compute; reflexivity | repeat constructor; discriminate
      | reflexivity | reflexivity]. }
  split.
  { apply Hxl. vm_compute. reflexivity. }
  apply Hroot. vm_compute. reflexivity.
Defined.

(** ** Properties and sheets *)

Section PropertiesAndSheets.

Context {C : Collaborators}.

(** C3 (amended): on a workbook already read, [SetWorkbookProps(nil)]
    returns no error and changes no stored value: protection, sheets and
    a properties record that is there stay as they are, and then the
    file is unchanged.  When the workbook has no properties record, one
    is created with the zero values, so that [GetWorkbookProps]
    afterwards reports [false], [false] and the empty code name where it
    reported three nil fields before. *)
Theorem SetWorkbookProps_nil (f : File) (wb : xlsxWorkbook) :
  WorkBook f = Some wb ->
  SetWorkbookProps f None
  = (setWorkBook f
       (mkWorkbook
          (Some (default new_xlsxWorkbookPr (WorkbookPr wb)))
          (WorkbookProtection wb) (Sheets wb)),
     None)
  /\ (forall pr, WorkbookPr wb = Some pr -> SetWorkbookProps f None = (f, None))
  /\ (WorkbookPr wb = None ->
      (GetWorkbookProps f).1.2 = mkPropsOptions None None None /\
      (GetWorkbookProps (SetWorkbookProps f None).1).1.2
      = mkPropsOptions (Some false) (Some false) (Some "")).
Proof.
  intros Hwb.
  assert (Hset : SetWorkbookProps f None
                 = (setWorkBook f
                      (mkWorkbook
                         (Some (default new_xlsxWorkbookPr (WorkbookPr wb)))
                         (WorkbookProtection wb) (Sheets wb)),
                    None)).
  { unfold SetWorkbookProps. rewrite (workbookReader_cached f wb Hwb).
    destruct (WorkbookPr wb); reflexivity. }
  split; [exact Hset|]. split.
  - intros pr Hpr. rewrite Hset, Hpr. simpl.
    rewrite <- Hpr. destruct wb as [p q r]; simpl.
    rewrite (setWorkBook_same f _ Hwb). reflexivity.
  - intros Hnone. split.
    + unfold GetWorkbookProps. rewrite (workbookReader_cached f wb Hwb), Hnone.
      reflexivity.
    + rewrite Hset, Hnone. unfold GetWorkbookProps.
      erewrite workbookReader_cached by reflexivity. reflexivity.
Qed.

(** C10: [setWorkbook] returns no error at all.  On a workbook already
    read it adds the one entry made of the name, the sheet id and [rId]
    followed by the decimal text of the relationship number after the
    sheets that were there, which stay as they were and in their order;
    nothing else in the file changes.  On a first read it does the same
    to the workbook [workbookReader] installs, whatever error the read
    had. *)
Theorem setWorkbook_appends
    (f : File) (wb : xlsxWorkbook) (name : string) (sheetID rid : Z) :
  WorkBook f = Some wb ->
  setWorkbook f name sheetID rid
  = setWorkBook f
      (mkWorkbook (WorkbookPr wb) (WorkbookProtection wb)
         (Sheets wb ++ [mkSheet name sheetID ("rId" +:+ strconv.Itoa rid)])%list)
  /\ strconv.decimalValue (strconv.Itoa rid) = Some rid
  /\ (forall g g1 wb1 err,
         workbookReader g = (g1, wb1, err) ->
         setWorkbook g name sheetID rid
         = setWorkBook g1
             (mkWorkbook (WorkbookPr wb1) (WorkbookProtection wb1)
                (Sheets wb1
                 ++ [mkSheet name sheetID ("rId" +:+ strconv.Itoa rid)])%list)).
Proof.
  intros Hwb. split; [|split].
  - unfold setWorkbook. rewrite (workbookReader_cached f wb Hwb). reflexivity.
  - unfold strconv.decimalValue, strconv.Itoa.
    rewrite NilEmpty.isi. simpl. rewrite DecimalZ.of_to. reflexivity.
  - intros g g1 wb1 err Hrd. unfold setWorkbook. rewrite Hrd. reflexivity.
Qed.

End PropertiesAndSheets.

(** C3 as the spec has it fails: on a workbook without a properties record
    [SetWorkbookProps(nil)] creates one, and [GetWorkbookProps] tells. *)
Lemma SetWorkbookProps_nil_counterexample :
  exists f1,
    @SetWorkbookProps Sample.collaborators Sample.plainFile None = (f1, None) /\
    f1 <> Sample.plainFile /\
    (WorkBook Sample.plainFile ≫= WorkbookPr) = None /\
    (WorkBook f1 ≫= WorkbookPr) = Some (mkWorkbookPr false false "") /\
    @GetWorkbookProps Sample.collaborators Sample.plainFile
    = (Sample.plainFile, mkPropsOptions None None None, None) /\
    @GetWorkbookProps Sample.collaborators f1
    = (f1, mkPropsOptions (Some false) (Some false) (Some ""), None).
Proof.
  eexists. split; [vm_compute; reflexivity|].
  split; [discriminate|].
  repeat split.
Qed.

Lemma SetWorkbookProps_nil_witness :
  WorkBook Sample.plainFile = Some Sample.plain /\
  @SetWorkbookProps Sample.collaborators Sample.plainFile None
  = (setWorkBook Sample.plainFile
       (mkWorkbook (Some (mkWorkbookPr false false "")) None
          [mkSheet "Sheet1" 1 "rId1"]),
     None).
Proof.
  split; [reflexivity|].
  apply (@SetWorkbookProps_nil Sample.collaborators Sample.plainFile Sample.plain).
  reflexivity.
Defined.

Lemma setWorkbook_appends_witness :
  WorkBook Sample.plainFile = Some Sample.plain /\
  @setWorkbook Sample.collaborators Sample.plainFile "Sheet2" 2 3
  = setWorkBook Sample.plainFile
      (mkWorkbook None None
         [mkSheet "Sheet1" 1 "rId1"; mkSheet "Sheet2" 2 "rId3"]).
Proof.
  split; [reflexivity|].
  apply (@setWorkbook_appends Sample.collaborators Sample.plainFile Sample.plain
           "Sheet2" 2 3).
  reflexivity.
Defined.

(** [setWorkbook] after a read that failed: the entry is added to the
    partly decoded workbook and the error is not seen. *)
Example setWorkbook_on_broken_part :
  WorkBook (@setWorkbook Sample.collaborators Sample.brokenPart "Sheet2" 2 3)
  = Some (mkWorkbook (Some new_xlsxWorkbookPr) None [mkSheet "Sheet2" 2 "rId3"]).
Proof. vm_compute. reflexivity. Qed.

(** ** Further properties of the reader *)

Section ReaderFacts.

Context {C : Collaborators}.

(** X1: whatever the first call of [workbookReader] returned, error or
    not, the next call on the file it left returns the same workbook with
    no error and leaves that file as it is: the part is decoded at most
    once. *)
Theorem workbookReader_idempotent (f f1 : File) (wb : xlsxWorkbook) err :
  workbookReader f = (f1, wb, err) ->
  workbookReader f1 = (f1, wb, None).
Proof.
  intros Hrd. apply workbookReader_cached.
  exact (workbookReader_installs f f1 wb err Hrd).
Qed.

(** X3: on its first call [workbookReader] registers namespace attributes
    only for a path it has not seen: when [f.xmlAttr] already has an entry
    for the workbook path the attribute table is left as it is, and
    otherwise the entry becomes the root element's attributes, passed
    through [addNameSpaces]. *)
Theorem workbookReader_namespaces (f : File) :
  WorkBook f = None ->
  (is_Some (xmlAttr f !! getWorkbookPath f) ->
   xmlAttr (workbookReader f).1.1 = xmlAttr f) /\
  (xmlAttr f !! getWorkbookPath f = None ->
   xmlAttr (workbookReader f).1.1
   = addNameSpaces
       (<[getWorkbookPath f :=
            getRootElement
              (namespaceStrictToTransitional (readXML f (getWorkbookPath f)))]>
          (xmlAttr f))
       (getWorkbookPath f) SourceRelationship).
Proof.
  intros Hnone. unfold workbookReader. rewrite Hnone. split.
  - intros [l Hl]. simpl. rewrite Hl.
    destruct (xmlDecode _) as [wb [e|]]; [destruct (negb (is_EOF e))|];
      reflexivity.
  - intros Hl. simpl. rewrite Hl. simpl.
    destruct (xmlDecode _) as [wb [e|]]; [destruct (negb (is_EOF e))|];
      reflexivity.
Qed.

(** X4: reading lazily changes no result: when [workbookReader] succeeds
    on a file, every operation gives on that file what it gives on the
    file the reader leaves; [setWorkbook] does so even when the read
    failed. *)
Theorem lazy_read_is_transparent (rnd : string) (f f1 : File) wb err :
  workbookReader f = (f1, wb, err) ->
  (forall name sheetID rid,
      setWorkbook f name sheetID rid = setWorkbook f1 name sheetID rid) /\
  (err = None ->
   (forall opts, SetWorkbookProps f opts = SetWorkbookProps f1 opts) /\
   GetWorkbookProps f = GetWorkbookProps f1 /\
   (forall opts, ProtectWorkbook rnd f opts = ProtectWorkbook rnd f1 opts) /\
   (forall password,
       UnprotectWorkbook rnd f password = UnprotectWorkbook rnd f1 password)).
Proof.
  intros Hrd.
  pose proof (workbookReader_cached f1 wb
                (workbookReader_installs f f1 wb err Hrd)) as Hrd1.
  split.
  - intros. unfold setWorkbook. rewrite Hrd, Hrd1. reflexivity.
  - intros ->. repeat split; intros.
    + unfold SetWorkbookProps. rewrite Hrd, Hrd1. reflexivity.
    + unfold GetWorkbookProps. rewrite Hrd, Hrd1. reflexivity.
    + unfold ProtectWorkbook. rewrite Hrd, Hrd1. reflexivity.
    + unfold UnprotectWorkbook. rewrite Hrd, Hrd1. reflexivity.
Qed.

(** X5: when [workbookReader] fails, [SetWorkbookProps],
    [GetWorkbookProps], [ProtectWorkbook] and [UnprotectWorkbook] return
    its error and write nothing of their own: the file is the one the
    reader left, and [GetWorkbookProps] returns three nil fields. *)
Theorem read_error_is_returned (rnd : string) (f f1 : File) wb (e : error) :
  workbookReader f = (f1, wb, Some e) ->
  (forall opts, SetWorkbookProps f opts = (f1, Some e)) /\
  GetWorkbookProps f = (f1, mkPropsOptions None None None, Some e) /\
  (forall opts, ProtectWorkbook rnd f opts = (f1, Some e)) /\
  (forall password, UnprotectWorkbook rnd f password = (f1, Some e)).
Proof.
  intros Hrd. repeat split; intros.
  - unfold SetWorkbookProps. rewrite Hrd. reflexivity.
  - unfold GetWorkbookProps. rewrite Hrd. reflexivity.
  - unfold ProtectWorkbook. rewrite Hrd. reflexivity.
  - unfold UnprotectWorkbook. rewrite Hrd. reflexivity.
Qed.

End ReaderFacts.

Lemma workbookReader_idempotent_witness :
  @workbookReader Sample.collaborators Sample.brokenPart
  = (setXmlAttr
       (setWorkBook Sample.brokenPart
          (mkWorkbook (Some new_xlsxWorkbookPr) None []))
       {[ "xl/workbook.xml" :=
            [SourceRelationship (Collaborators := Sample.collaborators)] ]},
     mkWorkbook (Some new_xlsxWorkbookPr) None [],
     Some (DecodeError "XML syntax error on line 1: unexpected EOF")) /\
  @workbookReader Sample.collaborators
    (setXmlAttr
       (setWorkBook Sample.brokenPart
          (mkWorkbook (Some new_xlsxWorkbookPr) None []))
       {[ "xl/workbook.xml" :=
            [SourceRelationship (Collaborators := Sample.collaborators)] ]})
  = (setXmlAttr
       (setWorkBook Sample.brokenPart
          (mkWorkbook (Some new_xlsxWorkbookPr) None []))
       {[ "xl/workbook.xml" :=
            [SourceRelationship (Collaborators := Sample.collaborators)] ]},
     mkWorkbook (Some new_xlsxWorkbookPr) None [], None).
Proof.
  split; [vm_compute; reflexivity|].
  apply (@workbookReader_idempotent Sample.collaborators Sample.brokenPart _ _
           (Some (DecodeError "XML syntax error on line 1: unexpected EOF"))).
  vm_compute. reflexivity.
Defined.

Lemma workbookReader_namespaces_witness :
  WorkBook Sample.freshPart = None /\
  xmlAttr Sample.freshPart !! "xl/workbook.xml" = None /\
  xmlAttr (@workbookReader Sample.collaborators Sample.freshPart).1.1
  = {[ "xl/workbook.xml" :=
         [SourceRelationship (Collaborators := Sample.collaborators)] ]}.
Proof.
  split; [reflexivity|]. split; [reflexivity|].
  refine (eq_trans
            (proj2 (@workbookReader_namespaces Sample.collaborators
                      Sample.freshPart _) _) _);
    [reflexivity | reflexivity | vm_compute; reflexivity].
Defined.

Lemma lazy_read_is_transparent_witness :
  @workbookReader Sample.collaborators Sample.freshPart
  = (setXmlAttr (setWorkBook Sample.freshPart new_xlsxWorkbook)
       {[ "xl/workbook.xml" :=
            [SourceRelationship (Collaborators := Sample.collaborators)] ]},
     new_xlsxWorkbook, None) /\
  @setWorkbook Sample.collaborators Sample.freshPart "Sheet1" 1 1
  = @setWorkbook Sample.collaborators
      (setXmlAttr (setWorkBook Sample.freshPart new_xlsxWorkbook)
         {[ "xl/workbook.xml" :=
              [SourceRelationship (Collaborators := Sample.collaborators)] ]})
      "Sheet1" 1 1.
Proof.
  split; [vm_compute; reflexivity|].
  apply (@lazy_read_is_transparent Sample.collaborators "0123456789abcdef"
           Sample.freshPart _ new_xlsxWorkbook None).
  vm_compute. reflexivity.
Defined.

Lemma read_error_is_returned_witness :
  @workbookReader Sample.collaborators Sample.emptyPart
  = (setXmlAttr (setWorkBook Sample.emptyPart new_xlsxWorkbook)
       {[ "xl/workbook.xml" :=
            [SourceRelationship (Collaborators := Sample.collaborators)] ]},
     new_xlsxWorkbook, Some io_EOF) /\
  @ProtectWorkbook Sample.collaborators "0123456789abcdef" Sample.emptyPart None
  = (setXmlAttr (setWorkBook Sample.emptyPart new_xlsxWorkbook)
       {[ "xl/workbook.xml" :=
            [SourceRelationship (Collaborators := Sample.collaborators)] ]},
     Some io_EOF).
Proof.
  split; [vm_compute; reflexivity|].
  apply (@read_error_is_returned Sample.collaborators "0123456789abcdef"
           Sample.emptyPart _ new_xlsxWorkbook io_EOF).
  vm_compute. reflexivity.
Defined.

(** ** Further properties of the workbook properties *)

Section PropertiesFacts.

Context {C : Collaborators}.

Lemma SetWorkbookProps_loaded (f : File) (wb : xlsxWorkbook) opts :
  WorkBook f = Some wb ->
  SetWorkbookProps f opts
  = (setWorkBook f
       (withWorkbookPr wb (Some (mergedProps (WorkbookPr wb) opts))), None).
Proof.
  intros Hwb. unfold SetWorkbookProps.
  rewrite (workbookReader_cached f wb Hwb).
  destruct opts as [[d p c]|]; [|destruct (WorkbookPr wb); reflexivity].
  destruct (WorkbookPr wb) as [[d0 p0 c0]|], d, p, c; reflexivity.
Qed.

Lemma GetWorkbookProps_loaded (f : File) (wb : xlsxWorkbook) :
  WorkBook f = Some wb ->
  GetWorkbookProps f
  = (f,
     match WorkbookPr wb with
     | Some pr =>
         mkPropsOptions (Some (Date1904 pr)) (Some (FilterPrivacy pr))
                        (Some (CodeName pr))
     | None => mkPropsOptions None None None
     end, None).
Proof.
  intros Hwb. unfold GetWorkbookProps.
  rewrite (workbookReader_cached f wb Hwb).
  destruct (WorkbookPr wb); reflexivity.
Qed.

(** X6: [SetWorkbookProps] followed by [GetWorkbookProps], on a workbook
    already read: both succeed, and every field read back is the one given
    in the options when it was given, and otherwise the value stored
    before (the zero value when there was no properties record); the other
    fields given do not matter to it.  Protection and sheets are as
    before. *)
Theorem SetWorkbookProps_then_GetWorkbookProps
    (f : File) (wb : xlsxWorkbook) (o : WorkbookPropsOptions) :
  WorkBook f = Some wb ->
  exists f1 wb1,
    SetWorkbookProps f (Some o) = (f1, None) /\
    WorkBook f1 = Some wb1 /\
    WorkbookProtection wb1 = WorkbookProtection wb /\
    Sheets wb1 = Sheets wb /\
    GetWorkbookProps f1
    = (f1,
       mkPropsOptions
         (Some (default (Date1904 (default new_xlsxWorkbookPr (WorkbookPr wb)))
                        (optDate1904 o)))
         (Some (default (FilterPrivacy (default new_xlsxWorkbookPr (WorkbookPr wb)))
                        (optFilterPrivacy o)))
         (Some (default (CodeName (default new_xlsxWorkbookPr (WorkbookPr wb)))
                        (optCodeName o))),
       None).
Proof.
  intros Hwb. rewrite (SetWorkbookProps_loaded f wb _ Hwb).
  eexists; eexists. split; [reflexivity|]. split; [reflexivity|].
  split; [reflexivity|]. split; [reflexivity|].
  erewrite GetWorkbookProps_loaded by reflexivity. reflexivity.
Qed.

(** X7: on a workbook already read, calling [SetWorkbookProps] a second
    time with the same options changes nothing more. *)
Theorem SetWorkbookProps_idempotent
    (f : File) (wb : xlsxWorkbook) (opts : option WorkbookPropsOptions) :
  WorkBook f = Some wb ->
  SetWorkbookProps (SetWorkbookProps f opts).1 opts = SetWorkbookProps f opts.
Proof.
  intros Hwb. rewrite (SetWorkbookProps_loaded f wb _ Hwb). simpl.
  erewrite SetWorkbookProps_loaded by reflexivity.
  destruct opts as [[[d|] [p|] [c|]]|], (WorkbookPr wb) as [[]|]; reflexivity.
Qed.

(** X8: on a workbook already read that has a properties record, giving
    [SetWorkbookProps] what [GetWorkbookProps] returned leaves the file as
    it is. *)
Theorem SetWorkbookProps_of_GetWorkbookProps
    (f : File) (wb : xlsxWorkbook) (pr : xlsxWorkbookPr) :
  WorkBook f = Some wb ->
  WorkbookPr wb = Some pr ->
  SetWorkbookProps f (Some (GetWorkbookProps f).1.2) = (f, None).
Proof.
  intros Hwb Hpr.
  rewrite (GetWorkbookProps_loaded f wb Hwb), Hpr. simpl.
  rewrite (SetWorkbookProps_loaded f wb _ Hwb), Hpr.
  destruct f as [w a p r], wb as [wpr wprot sh], pr as [d fp cn].
  simpl in *. subst. reflexivity.
Qed.

(** X9: [GetWorkbookProps] on a workbook already read returns no error
    and leaves the file as it is; its three fields are all nil when the
    workbook has no properties record and all set when it has one, never
    a mix. *)
Theorem GetWorkbookProps_all_or_nothing (f : File) (wb : xlsxWorkbook) :
  WorkBook f = Some wb ->
  exists opts,
    GetWorkbookProps f = (f, opts, None) /\
    (WorkbookPr wb = None ->
     optDate1904 opts = None /\ optFilterPrivacy opts = None /\
     optCodeName opts = None) /\
    (forall pr, WorkbookPr wb = Some pr ->
     optDate1904 opts = Some (Date1904 pr) /\
     optFilterPrivacy opts = Some (FilterPrivacy pr) /\
     optCodeName opts = Some (CodeName pr)).
Proof.
  intros Hwb. rewrite (GetWorkbookProps_loaded f wb Hwb).
  eexists. split; [reflexivity|]. split.
  - intros ->. auto.
  - intros pr ->. auto.
Qed.

End PropertiesFacts.

Lemma SetWorkbookProps_then_GetWorkbookProps_witness :
  WorkBook Sample.datedFile = Some Sample.dated /\
  exists f1 wb1,
    @SetWorkbookProps Sample.collaborators Sample.datedFile
      (Some (mkPropsOptions None (Some true) None)) = (f1, None) /\
    WorkBook f1 = Some wb1 /\
    WorkbookProtection wb1 = None /\
    Sheets wb1 = [mkSheet "Sheet1" 1 "rId1"] /\
    @GetWorkbookProps Sample.collaborators f1
    = (f1, mkPropsOptions (Some true) (Some true) (Some "ThisWorkbook"), None).
Proof.
  split; [reflexivity|].
  apply (@SetWorkbookProps_then_GetWorkbookProps Sample.collaborators
           Sample.datedFile Sample.dated (mkPropsOptions None (Some true) None)).
  reflexivity.
Defined.

Lemma SetWorkbookProps_idempotent_witness :
  WorkBook Sample.plainFile = Some Sample.plain /\
  @SetWorkbookProps Sample.collaborators
    (@SetWorkbookProps Sample.collaborators Sample.plainFile
       (Some (mkPropsOptions (Some true) None None))).1
    (Some (mkPropsOptions (Some true) None None))
  = @SetWorkbookProps Sample.collaborators Sample.plainFile
      (Some (mkPropsOptions (Some true) None None)).
Proof.
  split; [reflexivity|].
  apply (@SetWorkbookProps_idempotent Sample.collaborators Sample.plainFile
           Sample.plain).
  reflexivity.
Defined.

Lemma SetWorkbookProps_of_GetWorkbookProps_witness :
  WorkBook Sample.datedFile = Some Sample.dated /\
  WorkbookPr Sample.dated = Some (mkWorkbookPr true false "ThisWorkbook") /\
  @SetWorkbookProps Sample.collaborators Sample.datedFile
    (Some (@GetWorkbookProps Sample.collaborators Sample.datedFile).1.2)
  = (Sample.datedFile, None).
Proof.
  split; [reflexivity|]. split; [reflexivity|].
  apply (@SetWorkbookProps_of_GetWorkbookProps Sample.collaborators
           Sample.datedFile Sample.dated (mkWorkbookPr true false "ThisWorkbook"));
    reflexivity.
Defined.

Lemma GetWorkbookProps_all_or_nothing_witness :
  WorkBook Sample.plainFile = Some Sample.plain /\
  exists opts,
    @GetWorkbookProps Sample.collaborators Sample.plainFile
    = (Sample.plainFile, opts, None) /\
    optDate1904 opts = None /\ optFilterPrivacy opts = None /\
    optCodeName opts = None.
Proof.
  split; [reflexivity|].
  destruct (@GetWorkbookProps_all_or_nothing Sample.collaborators
              Sample.plainFile Sample.plain eq_refl)
    as (opts & Hget & Hnone & _).
  exists opts. split; [exact Hget|]. apply Hnone. reflexivity.
Defined.

(** ** Further properties of the protection *)

Section ProtectionFacts.

Context {C : Collaborators}.

Lemma ProtectWorkbook_loaded rnd (f : File) (wb : xlsxWorkbook) opts :
  WorkBook f = Some wb ->
  ProtectWorkbook rnd f opts
  = (setWorkBook f
       (withWorkbookProtection wb (Some (protectionFor rnd opts).1)),
     (protectionFor rnd opts).2).
Proof.
  intros Hwb. unfold ProtectWorkbook, protectionFor.
  rewrite (workbookReader_cached f wb Hwb).
  destruct opts as [o|]; simpl.
  - fold (flagsOnly o). fold (algorithmOf o).
    destruct (String.eqb (Password o) ""); simpl.
    + destruct (WorkbookProtection wb); reflexivity.
    + destruct (genISOPasswdHash _ _ _ _ _) as [[h s]|e];
        destruct (WorkbookProtection wb); reflexivity.
  - destruct (WorkbookProtection wb); reflexivity.
Qed.

(** X10: [ProtectWorkbook] never looks at the protection record that is
    there: on two workbooks that differ in that record only it leaves the
    same file and returns the same error; in particular a second call with
    the same options and the same random bytes changes nothing more. *)
Theorem ProtectWorkbook_ignores_old_record
    rnd (f : File) (wb : xlsxWorkbook)
    (p q : option xlsxWorkbookProtection)
    (opts : option WorkbookProtectionOptions) :
  ProtectWorkbook rnd (setWorkBook f (withWorkbookProtection wb p)) opts
  = ProtectWorkbook rnd (setWorkBook f (withWorkbookProtection wb q)) opts
  /\ ProtectWorkbook rnd
       (ProtectWorkbook rnd (setWorkBook f wb) opts).1 opts
     = ProtectWorkbook rnd (setWorkBook f wb) opts.
Proof.
  split.
  - erewrite !ProtectWorkbook_loaded by reflexivity. reflexivity.
  - erewrite (ProtectWorkbook_loaded rnd (setWorkBook f wb)) by reflexivity.
    simpl. erewrite ProtectWorkbook_loaded by reflexivity. reflexivity.
Qed.

(** X11: on a workbook already read, whatever the options and whether
    the hash collaborator fails or not, [ProtectWorkbook] leaves a
    protection record whose lock flags are those of the options ([false]
    for nil options), and leaves properties, sheets and the rest of the
    file as they were.  It returns an error only when a password was
    given. *)
Theorem ProtectWorkbook_frame
    rnd (f : File) (wb : xlsxWorkbook)
    (opts : option WorkbookProtectionOptions) :
  WorkBook f = Some wb ->
  exists rec,
    (ProtectWorkbook rnd f opts).1
    = setWorkBook f (mkWorkbook (WorkbookPr wb) (Some rec) (Sheets wb)) /\
    LockStructure rec
    = optLockStructure (default (mkProtectionOptions "" "" false false) opts) /\
    LockWindows rec
    = optLockWindows (default (mkProtectionOptions "" "" false false) opts) /\
    ((ProtectWorkbook rnd f opts).2 <> None ->
     exists o, opts = Some o /\ Password o <> "").
Proof.
  intros Hwb. rewrite (ProtectWorkbook_loaded rnd f wb opts Hwb).
  exists (protectionFor rnd opts).1. split; [reflexivity|].
  unfold protectionFor.
  set (o := default (mkProtectionOptions "" "" false false) opts).
  destruct (String.eqb (Password o) "") eqn:Hpw.
  - simpl. split; [reflexivity|]. split; [reflexivity|].
    intros Hne. contradiction.
  - assert (Hopts : exists o', opts = Some o' /\ Password o' <> "").
    { destruct opts as [o'|]; [|discriminate Hpw].
      exists o'. split; [reflexivity|]. apply String.eqb_neq. exact Hpw. }
    destruct (genISOPasswdHash _ _ _ _ _) as [[h s]|e]; simpl; auto.
Qed.

(** X12: a password given with no algorithm name is hashed with SHA-512:
    [ProtectWorkbook] does with an empty [AlgorithmName] what it does with
    [SHA-512]. *)
Theorem ProtectWorkbook_default_algorithm
    rnd (f : File) (password : string) (lockStructure lockWindows : bool) :
  ProtectWorkbook rnd f
    (Some (mkProtectionOptions "" password lockStructure lockWindows))
  = ProtectWorkbook rnd f
      (Some (mkProtectionOptions "SHA-512" password lockStructure lockWindows)).
Proof. reflexivity. Qed.

(** X13: on a workbook already read that is not protected,
    [ProtectWorkbook] followed by [UnprotectWorkbook] with no password
    gives the file back as it was, whatever the options were and whether
    [ProtectWorkbook] failed or not. *)
Theorem ProtectWorkbook_then_override
    rnd rnd' (f : File) (wb : xlsxWorkbook)
    (opts : option WorkbookProtectionOptions) :
  WorkBook f = Some wb ->
  WorkbookProtection wb = None ->
  UnprotectWorkbook rnd' (ProtectWorkbook rnd f opts).1 [] = (f, None).
Proof.
  intros Hwb Hnone. rewrite (ProtectWorkbook_loaded rnd f wb opts Hwb).
  unfold UnprotectWorkbook.
  erewrite workbookReader_cached by reflexivity.
  destruct f as [w a p r], wb as [pr prot sh].
  simpl in *. subst. reflexivity.
Qed.

(** X14: a protection record without an algorithm name is removed by
    [UnprotectWorkbook] with any password: nothing is verified, the hash
    collaborator is not asked, and only the record changes. *)
Theorem UnprotectWorkbook_no_algorithm
    rnd (f : File) (wb : xlsxWorkbook) (rec : xlsxWorkbookProtection)
    (password0 : string) (more : list string) :
  WorkBook f = Some wb ->
  WorkbookProtection wb = Some rec ->
  WorkbookAlgorithmName rec = "" ->
  UnprotectWorkbook rnd f (password0 :: more)
  = (setWorkBook f (mkWorkbook (WorkbookPr wb) None (Sheets wb)), None).
Proof.
  intros Hwb Hrec Halg. unfold UnprotectWorkbook.
  rewrite (workbookReader_cached f wb Hwb), Hrec, Halg. reflexivity.
Qed.

(** X15: after [ProtectWorkbook] with an empty password (or nil options)
    on a workbook already read, [UnprotectWorkbook] succeeds with any
    password, and with none, and leaves the workbook without a protection
    record. *)
Theorem ProtectWorkbook_without_password_then_unprotect
    rnd rnd' (f : File) (wb : xlsxWorkbook)
    (opts : option WorkbookProtectionOptions) (password : list string) :
  WorkBook f = Some wb ->
  Password (default (mkProtectionOptions "" "" false false) opts) = "" ->
  (ProtectWorkbook rnd f opts).2 = None /\
  UnprotectWorkbook rnd' (ProtectWorkbook rnd f opts).1 password
  = (setWorkBook f (mkWorkbook (WorkbookPr wb) None (Sheets wb)), None).
Proof.
  intros Hwb Hpw. rewrite (ProtectWorkbook_loaded rnd f wb opts Hwb).
  unfold protectionFor. rewrite Hpw. simpl. split; [reflexivity|].
  unfold UnprotectWorkbook.
  erewrite workbookReader_cached by reflexivity.
  destruct password; reflexivity.
Qed.

(** X16: on a workbook already read [UnprotectWorkbook] either removes
    the protection record, changing nothing else, and returns no error,
    or returns an error and leaves the file exactly as it was; the second
    only when a password was given. *)
Theorem UnprotectWorkbook_all_or_nothing
    rnd (f : File) (wb : xlsxWorkbook) (password : list string) :
  WorkBook f = Some wb ->
  UnprotectWorkbook rnd f password
  = (setWorkBook f (mkWorkbook (WorkbookPr wb) None (Sheets wb)), None)
  \/ (password <> [] /\
      exists e, UnprotectWorkbook rnd f password = (f, Some e)).
Proof.
  intros Hwb. unfold UnprotectWorkbook.
  rewrite (workbookReader_cached f wb Hwb).
  destruct password as [|password0 more]; [left; reflexivity|].
  destruct (WorkbookProtection wb) as [rec|];
    [|right; split; [discriminate | eexists; reflexivity]].
  destruct (negb (String.eqb (WorkbookAlgorithmName rec) ""));
    [|left; reflexivity].
  destruct (genISOPasswdHash _ _ _ _ _) as [[h s]|e];
    [|right; split; [discriminate | eexists; reflexivity]].
  destruct (negb (String.eqb (WorkbookHashValue rec) h));
    [right; split; [discriminate | eexists; reflexivity] | left; reflexivity].
Qed.

(** X17: with a protection record that names an algorithm,
    [UnprotectWorkbook] asks the hash collaborator for the hash of the
    first password under the stored algorithm, salt and spin count.  An
    error of the collaborator is returned with the file unchanged; a hash
    equal to the stored one removes the record; any other hash gives
    [ErrUnprotectWorkbookPassword] with the file unchanged.  Passwords
    after the first are not looked at. *)
Theorem UnprotectWorkbook_by_stored_hash
    rnd (f : File) (wb : xlsxWorkbook) (rec : xlsxWorkbookProtection)
    (password0 : string) (more : list string) :
  WorkBook f = Some wb ->
  WorkbookProtection wb = Some rec ->
  WorkbookAlgorithmName rec <> "" ->
  (forall e,
      genISOPasswdHash rnd password0 (WorkbookAlgorithmName rec)
        (WorkbookSaltValue rec) (WorkbookSpinCount rec) = inr e ->
      UnprotectWorkbook rnd f (password0 :: more) = (f, Some e)) /\
  (forall h s,
      genISOPasswdHash rnd password0 (WorkbookAlgorithmName rec)
        (WorkbookSaltValue rec) (WorkbookSpinCount rec) = inl (h, s) ->
      (h = WorkbookHashValue rec ->
       UnprotectWorkbook rnd f (password0 :: more)
       = (setWorkBook f (mkWorkbook (WorkbookPr wb) None (Sheets wb)), None)) /\
      (h <> WorkbookHashValue rec ->
       UnprotectWorkbook rnd f (password0 :: more)
       = (f, Some ErrUnprotectWorkbookPassword))).
Proof.
  intros Hwb Hrec Halg.
  assert (Hun : forall r,
             genISOPasswdHash rnd password0 (WorkbookAlgorithmName rec)
               (WorkbookSaltValue rec) (WorkbookSpinCount rec) = r ->
             UnprotectWorkbook rnd f (password0 :: more)
             = match r with
               | inr e => (f, Some e)
               | inl (h, _) =>
                   if String.eqb (WorkbookHashValue rec) h
                   then (setWorkBook f (withWorkbookProtection wb None), None)
                   else (f, Some ErrUnprotectWorkbookPassword)
               end).
  { intros r Hr. unfold UnprotectWorkbook.
    rewrite (workbookReader_cached f wb Hwb), Hrec.
    rewrite (eqb_empty_false _ Halg), Hr. simpl.
    destruct r as [[h s]|e]; [|reflexivity].
    destruct (String.eqb (WorkbookHashValue rec) h); reflexivity. }
  split.
  - intros e He. exact (Hun _ He).
  - intros h s Hh. rewrite (Hun _ Hh). split.
    + intros ->. rewrite String.eqb_refl. reflexivity.
    + intros Hne.
      destruct (String.eqb (WorkbookHashValue rec) h) eqn:E; [|reflexivity].
      apply String.eqb_eq in E. congruence.
Qed.

End ProtectionFacts.

Lemma ProtectWorkbook_frame_witness :
  WorkBook Sample.datedFile = Some Sample.dated /\
  exists rec,
    (@ProtectWorkbook Sample.collaborators "0123456789abcdef" Sample.datedFile
       (Some (mkProtectionOptions "ROT13" "secret" true true))).1
    = setWorkBook Sample.datedFile
        (mkWorkbook (Some (mkWorkbookPr true false "ThisWorkbook")) (Some rec)
           [mkSheet "Sheet1" 1 "rId1"]) /\
    LockStructure rec = true /\ LockWindows rec = true.
Proof.
  split; [reflexivity|].
  destruct (@ProtectWorkbook_frame Sample.collaborators "0123456789abcdef"
              Sample.datedFile Sample.dated
              (Some (mkProtectionOptions "ROT13" "secret" true true)) eq_refl)
    as (rec & Hfile & Hs & Hw & _).
  exists rec. auto.
Defined.

Lemma ProtectWorkbook_then_override_witness :
  WorkBook Sample.plainFile = Some Sample.plain /\
  WorkbookProtection Sample.plain = None /\
  @UnprotectWorkbook Sample.collaborators "fedcba9876543210"
    (@ProtectWorkbook Sample.collaborators "0123456789abcdef" Sample.plainFile
       (Some (mkProtectionOptions "MD5" "secret" true false))).1 []
  = (Sample.plainFile, None).
Proof.
  split; [reflexivity|]. split; [reflexivity|].
  apply (@ProtectWorkbook_then_override Sample.collaborators
           "0123456789abcdef" "fedcba9876543210" Sample.plainFile Sample.plain);
    reflexivity.
Defined.

Lemma UnprotectWorkbook_no_algorithm_witness :
  WorkBook Sample.lockedFile = Some Sample.locked /\
  WorkbookProtection Sample.locked
  = Some (mkWorkbookProtection true false "" "" "" 0) /\
  @UnprotectWorkbook Sample.collaborators "0123456789abcdef" Sample.lockedFile
    ["anything"]
  = (Sample.plainFile, None).
Proof.
  split; [reflexivity|]. split; [reflexivity|].
  apply (@UnprotectWorkbook_no_algorithm Sample.collaborators
           "0123456789abcdef" Sample.lockedFile Sample.locked
           (mkWorkbookProtection true false "" "" "" 0) "anything" []);
    reflexivity.
Defined.

Lemma ProtectWorkbook_without_password_then_unprotect_witness :
  WorkBook Sample.plainFile = Some Sample.plain /\
  (@ProtectWorkbook Sample.collaborators "0123456789abcdef" Sample.plainFile
     (Some (mkProtectionOptions "MD5" "" true false))).2 = None /\
  @UnprotectWorkbook Sample.collaborators "fedcba9876543210"
    (@ProtectWorkbook Sample.collaborators "0123456789abcdef" Sample.plainFile
       (Some (mkProtectionOptions "MD5" "" true false))).1 ["anything"]
  = (Sample.plainFile, None).
Proof.
  split; [reflexivity|].
  apply (@ProtectWorkbook_without_password_then_unprotect Sample.collaborators
           "0123456789abcdef" "fedcba9876543210" Sample.plainFile Sample.plain
           (Some (mkProtectionOptions "MD5" "" true false)) ["anything"]);
    reflexivity.
Defined.

Lemma UnprotectWorkbook_all_or_nothing_witness :
  WorkBook Sample.keyedFile = Some Sample.keyed /\
  (@UnprotectWorkbook Sample.collaborators "0123456789abcdef" Sample.keyedFile
     ["secret"]
   = (setWorkBook Sample.keyedFile
        (mkWorkbook None None [mkSheet "Sheet1" 1 "rId1"]), None)
   \/ (["secret"] <> [] /\
       exists e,
         @UnprotectWorkbook Sample.collaborators "0123456789abcdef"
           Sample.keyedFile ["secret"] = (Sample.keyedFile, Some e))).
Proof.
  split; [reflexivity|].
  apply (@UnprotectWorkbook_all_or_nothing Sample.collaborators
           "0123456789abcdef" Sample.keyedFile Sample.keyed ["secret"]).
  reflexivity.
Defined.

Lemma UnprotectWorkbook_by_stored_hash_witness :
  WorkBook Sample.keyedFile = Some Sample.keyed /\
  Sample.hash "0123456789abcdef" "secret" "SHA-512" "c2FsdA==" 100000
  = inl ("c2FsdA==$SHA-512$secret", "c2FsdA==") /\
  @UnprotectWorkbook Sample.collaborators "0123456789abcdef" Sample.keyedFile
    ["secret"] = (Sample.keyedFile, Some ErrUnprotectWorkbookPassword).
Proof.
  split; [reflexivity|]. split; [reflexivity|].
  refine (proj2 (proj2 (@UnprotectWorkbook_by_stored_hash Sample.collaborators
                          "0123456789abcdef" Sample.keyedFile Sample.keyed
                          (mkWorkbookProtection true true "SHA-512" "c2FsdA=="
                             "aGFzaA==" 100000)
                          "secret" [] _ _ _)
                   "c2FsdA==$SHA-512$secret" "c2FsdA==" _) _);
    [reflexivity | reflexivity | discriminate | reflexivity | discriminate].
Defined.

(** ** Further properties of the sheet list *)

Section SheetFacts.

Context {C : Collaborators}.

Lemma setWorkbook_loaded (f : File) (wb : xlsxWorkbook) name sheetID rid :
  WorkBook f = Some wb ->
  setWorkbook f name sheetID rid
  = setWorkBook f
      (withSheets wb
         (Sheets wb ++ [mkSheet name sheetID ("rId" +:+ strconv.Itoa rid)])%list).
Proof.
  intros Hwb. unfold setWorkbook.
  rewrite (workbookReader_cached f wb Hwb). reflexivity.
Qed.

Lemma decimalValue_Itoa (i : Z) : strconv.decimalValue (strconv.Itoa i) = Some i.
Proof.
  unfold strconv.decimalValue, strconv.Itoa.
  rewrite NilEmpty.isi. simpl. rewrite DecimalZ.of_to. reflexivity.
Qed.

(** X18: registering several sheets one after the other on a workbook
    already read adds their entries after the sheets that were there, in
    the order of the calls, and changes nothing else. *)
Theorem setWorkbook_in_call_order
    (f : File) (wb : xlsxWorkbook) (calls : list (string * Z * Z)) :
  WorkBook f = Some wb ->
  fold_left (fun g c => setWorkbook g c.1.1 c.1.2 c.2) calls f
  = setWorkBook f
      (mkWorkbook (WorkbookPr wb) (WorkbookProtection wb)
         (Sheets wb
          ++ map (fun c => mkSheet c.1.1 c.1.2 ("rId" +:+ strconv.Itoa c.2))
                 calls)%list).
Proof.
  revert f wb. induction calls as [|c calls IH]; intros f wb Hwb.
  - simpl. rewrite app_nil_r.
    destruct wb; simpl. rewrite (setWorkBook_same f _ Hwb). reflexivity.
  - simpl fold_left. rewrite (setWorkbook_loaded f wb _ _ _ Hwb).
    erewrite IH by reflexivity. simpl. rewrite <- app_assoc. reflexivity.
Qed.

(** X19: after [setWorkbook] on any file, read or not, readable or not,
    the last sheet of the workbook is the entry just made; and two such
    entries have the same relationship id only when they were made from
    the same relationship number. *)
Theorem setWorkbook_last_entry
    (f g : File) (name name' : string) (sheetID sheetID' rid rid' : Z) :
  (WorkBook (setWorkbook f name sheetID rid) ≫= (fun wb => last (Sheets wb)))
  = Some (mkSheet name sheetID ("rId" +:+ strconv.Itoa rid)) /\
  (ID <$> (WorkBook (setWorkbook f name sheetID rid)
           ≫= (fun wb => last (Sheets wb)))
   = ID <$> (WorkBook (setWorkbook g name' sheetID' rid')
             ≫= (fun wb => last (Sheets wb))) ->
   rid = rid').
Proof.
  assert (Hlast : forall h n s r,
             (WorkBook (setWorkbook h n s r) ≫= (fun wb => last (Sheets wb)))
             = Some (mkSheet n s ("rId" +:+ strconv.Itoa r))).
  { intros h n s r. unfold setWorkbook.
    destruct (workbookReader h) as [[h1 wb] err]. simpl.
    apply last_snoc. }
  split; [apply Hlast|].
  rewrite !Hlast. simpl. intros Heq.
  apply (inj Some), (inj (String.app "rId")) in Heq.
  pose proof (decimalValue_Itoa rid) as H1.
  rewrite Heq, decimalValue_Itoa in H1. congruence.
Qed.

(** X20: on a workbook already read the three writers do not disturb one
    another: registering a sheet before or after [SetWorkbookProps] or
    [ProtectWorkbook] gives the same file and the same error, and so does
    swapping [SetWorkbookProps] and [ProtectWorkbook]. *)
Theorem writers_commute
    rnd (f : File) (wb : xlsxWorkbook)
    (props : option WorkbookPropsOptions)
    (prot : option WorkbookProtectionOptions)
    (name : string) (sheetID rid : Z) :
  WorkBook f = Some wb ->
  SetWorkbookProps (setWorkbook f name sheetID rid) props
  = (setWorkbook (SetWorkbookProps f props).1 name sheetID rid,
     (SetWorkbookProps f props).2) /\
  ProtectWorkbook rnd (setWorkbook f name sheetID rid) prot
  = (setWorkbook (ProtectWorkbook rnd f prot).1 name sheetID rid,
     (ProtectWorkbook rnd f prot).2) /\
  (SetWorkbookProps (ProtectWorkbook rnd f prot).1 props).1
  = (ProtectWorkbook rnd (SetWorkbookProps f props).1 prot).1 /\
  (ProtectWorkbook rnd (SetWorkbookProps f props).1 prot).2
  = (ProtectWorkbook rnd f prot).2.
Proof.
  intros Hwb.
  rewrite (setWorkbook_loaded f wb _ _ _ Hwb).
  rewrite (SetWorkbookProps_loaded f wb props Hwb).
  rewrite (ProtectWorkbook_loaded rnd f wb prot Hwb).
  cbn [fst snd].
  repeat split.
  - erewrite SetWorkbookProps_loaded, setWorkbook_loaded by reflexivity.
    reflexivity.
  - erewrite ProtectWorkbook_loaded, setWorkbook_loaded by reflexivity.
    reflexivity.
  - erewrite SetWorkbookProps_loaded, ProtectWorkbook_loaded by reflexivity.
    reflexivity.
  - erewrite ProtectWorkbook_loaded by reflexivity. reflexivity.
Qed.

End SheetFacts.

Lemma setWorkbook_in_call_order_witness :
  WorkBook Sample.plainFile = Some Sample.plain /\
  @setWorkbook Sample.collaborators
    (@setWorkbook Sample.collaborators Sample.plainFile "Sheet2" 2 3)
    "Sheet3" 3 4
  = setWorkBook Sample.plainFile
      (mkWorkbook None None
         [mkSheet "Sheet1" 1 "rId1"; mkSheet "Sheet2" 2 "rId3";
          mkSheet "Sheet3" 3 "rId4"]).
Proof.
  split; [reflexivity|].
  apply (@setWorkbook_in_call_order Sample.collaborators Sample.plainFile
           Sample.plain [("Sheet2", 2, 3); ("Sheet3", 3, 4)]).
  reflexivity.
Defined.

Lemma writers_commute_witness :
  WorkBook Sample.plainFile = Some Sample.plain /\
  @ProtectWorkbook Sample.collaborators "0123456789abcdef"
    (@setWorkbook Sample.collaborators Sample.plainFile "Sheet2" 2 3)
    (Some (mkProtectionOptions "" "secret" true false))
  = (@setWorkbook Sample.collaborators
       (@ProtectWorkbook Sample.collaborators "0123456789abcdef"
          Sample.plainFile
          (Some (mkProtectionOptions "" "secret" true false))).1
       "Sheet2" 2 3,
     None).
Proof.
  split; [reflexivity|].
  refine (proj1 (proj2 (@writers_commute Sample.collaborators
                          "0123456789abcdef" Sample.plainFile Sample.plain
                          None (Some (mkProtectionOptions "" "secret" true false))
                          "Sheet2" 2 3 _)));
    reflexivity.
Defined.

Lemma setWorkbook_last_entry_witness :
  (WorkBook (@setWorkbook Sample.collaborators Sample.brokenPart "Sheet2" 2 3)
   ≫= (fun wb => last (Sheets wb)))
  = Some (mkSheet "Sheet2" 2 "rId3").
Proof.
  exact (proj1 (@setWorkbook_last_entry Sample.collaborators Sample.brokenPart
                  Sample.plainFile "Sheet2" "Sheet3" 2 3 3 4)).
Defined.

(** ** Further properties of the paths *)

Section PathFacts.

Context {C : Collaborators}.

(** X21: when the package has no top-level relationship table, or the
    table has no relationship to an office document, the workbook path is
    empty and [getWorkbookRelsPath] is [_rels/..rels]: [filepath.Base] of
    the empty path is a dot. *)
Theorem getWorkbookRelsPath_without_document (f : File) :
  relsReader f "_rels/.rels" = None \/
  (exists rels, relsReader f "_rels/.rels" = Some rels /\ Forall otherType rels) ->
  getWorkbookPath f = "" /\ getWorkbookRelsPath f = "_rels/..rels".
Proof.
  intros Hno.
  assert (Hpath : getWorkbookPath f = "").
  { unfold getWorkbookPath. destruct Hno as [-> | (rels & -> & Hall)].
    - reflexivity.
    - apply firstOfficeDocument_none; exact Hall. }
  split; [exact Hpath|].
  unfold getWorkbookRelsPath. rewrite Hpath. reflexivity.
Qed.

(** X22: from the relationship table to the path of the relationship
    part: when the first relationship to an office document has the
    target [d1/.../dn/b], written with or without a leading separator,
    the workbook path is [d1/.../dn/b] and [getWorkbookRelsPath] is
    [d1/.../dn/_rels/b.rels]; relationships after that one do not
    matter. *)
Theorem paths_from_relationships
    (f : File) (pre post : list xlsxRelationship) (rel : xlsxRelationship)
    (ds : list string) (b : string) :
  relsReader f "_rels/.rels" = Some (pre ++ rel :: post)%list ->
  Forall otherType pre ->
  Type_ rel = SourceRelationshipOfficeDocument ->
  Forall (fun e => plainElement e = true) ds ->
  plainElement b = true ->
  Target rel = String.concat "/" (ds ++ [b])
  \/ Target rel = String filepath.Separator (String.concat "/" (ds ++ [b])) ->
  getWorkbookPath f = String.concat "/" (ds ++ [b]) /\
  getWorkbookRelsPath f = String.concat "/" (ds ++ ["_rels"; b +:+ ".rels"]).
Proof.
  intros Hrels Hpre Htype Hds Hb Htarget.
  assert (Hpath : getWorkbookPath f = String.concat "/" (ds ++ [b])).
  { unfold getWorkbookPath. rewrite Hrels.
    rewrite (firstOfficeDocument_first pre post rel Hpre Htype).
    destruct Htarget as [-> | ->]; [|apply TrimPrefix_separator].
    assert (Hhead : exists c rest,
               String.concat "/" (ds ++ [b]) = String c rest /\
               filepath.IsPathSeparator c = false).
    { destruct ds as [|d ds]; simpl app.
      - apply (concat_plain_head b [] Hb).
      - apply (concat_plain_head d (ds ++ [b])).
        inversion Hds; assumption. }
    destruct Hhead as (c & rest & -> & Hc).
    apply TrimPrefix_no_separator; exact Hc. }
  split; [exact Hpath|].
  apply getWorkbookRelsPath_convention; assumption.
Qed.

End PathFacts.

Lemma getWorkbookRelsPath_without_document_witness :
  @getWorkbookPath Sample.collaborators Sample.noDocument = "" /\
  @getWorkbookRelsPath Sample.collaborators Sample.noDocument = "_rels/..rels".
Proof.
  apply (@getWorkbookRelsPath_without_document Sample.collaborators
           Sample.noDocument).
  right. eexists. split; [vm_compute; reflexivity|].
  repeat constructor; discriminate.
Defined.

Lemma paths_from_relationships_witness :
  @getWorkbookPath Sample.collaborators Sample.emptyPart = "xl/workbook.xml" /\
  @getWorkbookRelsPath Sample.collaborators Sample.emptyPart
  = "xl/_rels/workbook.xml.rels".
Proof.
  apply (@paths_from_relationships Sample.collaborators Sample.emptyPart
           [mkRelationship "rId3" "docProps/app.xml"
              "http://schemas.openxmlformats.org/officeDocument/2006/relationships/extended-properties"]
           []
           (mkRelationship "rId1" "/xl/workbook.xml"
              "http://schemas.openxmlformats.org/officeDocument/2006/relationships/officeDocument")
           ["xl"] "workbook.xml");
    [vm_compute; reflexivity | repeat constructor; discriminate | reflexivity
    | repeat constructor | reflexivity | right; reflexivity].
Defined.

(** ** How successive calls combine *)

Section Sequences.

Context {C : Collaborators}.

(** X23: the parameters of the verification after [ProtectWorkbook] with
    a password: [UnprotectWorkbook] asks the hash collaborator for the
    hash of the password it is given under the algorithm of the options
    (SHA-512 when they name none), the salt the collaborator returned to
    [ProtectWorkbook] and the spin count [workbookProtectionSpinCount],
    and compares it with the hash stored then: equal removes the record,
    different gives [ErrUnprotectWorkbookPassword], and an error of the
    collaborator is returned; in the last two cases the protected file
    stays as it is. *)
Theorem ProtectWorkbook_then_verification
    rnd rnd' (f : File) (wb : xlsxWorkbook) (o : WorkbookProtectionOptions)
    (h s password0 : string) (more : list string) :
  WorkBook f = Some wb ->
  Password o <> "" ->
  genISOPasswdHash rnd (Password o) (algorithmOf o) ""
    workbookProtectionSpinCount = inl (h, s) ->
  ProtectWorkbook rnd f (Some o)
  = (setWorkBook f
       (mkWorkbook (WorkbookPr wb)
          (Some (mkWorkbookProtection (optLockStructure o) (optLockWindows o)
                   (algorithmOf o) s h workbookProtectionSpinCount))
          (Sheets wb)),
     None) /\
  UnprotectWorkbook rnd' (ProtectWorkbook rnd f (Some o)).1 (password0 :: more)
  = match genISOPasswdHash rnd' password0 (algorithmOf o) s
            workbookProtectionSpinCount with
    | inr e => ((ProtectWorkbook rnd f (Some o)).1, Some e)
    | inl (h', _) =>
        if String.eqb h h'
        then (setWorkBook f (mkWorkbook (WorkbookPr wb) None (Sheets wb)), None)
        else ((ProtectWorkbook rnd f (Some o)).1,
              Some ErrUnprotectWorkbookPassword)
    end.
Proof.
  intros Hwb Hpw Hhash.
  assert (Hprot : ProtectWorkbook rnd f (Some o)
                  = (setWorkBook f
                       (mkWorkbook (WorkbookPr wb)
                          (Some (mkWorkbookProtection (optLockStructure o)
                                   (optLockWindows o) (algorithmOf o) s h
                                   workbookProtectionSpinCount))
                          (Sheets wb)),
                     None)).
  { rewrite (ProtectWorkbook_loaded rnd f wb _ Hwb). unfold protectionFor.
    simpl default. rewrite (eqb_empty_false _ Hpw), Hhash. reflexivity. }
  split; [exact Hprot|]. rewrite Hprot. cbn [fst].
  unfold UnprotectWorkbook.
  erewrite workbookReader_cached by reflexivity. simpl.
  rewrite algorithmOf_nonempty. simpl.
  destruct (genISOPasswdHash rnd' password0 _ _ _) as [[h' s']|e];
    [|reflexivity].
  destruct (String.eqb h h'); reflexivity.
Qed.

(** X24: two calls of [SetWorkbookProps] in a row on a workbook already
    read do what one call does with the options of the second, completed
    by those of the first where the second has nil. *)
Theorem SetWorkbookProps_twice
    (f : File) (wb : xlsxWorkbook) (o1 o2 : WorkbookPropsOptions) :
  WorkBook f = Some wb ->
  SetWorkbookProps (SetWorkbookProps f (Some o1)).1 (Some o2)
  = SetWorkbookProps f
      (Some (mkPropsOptions
               (match optDate1904 o2 with
                | Some b => Some b
                | None => optDate1904 o1
                end)
               (match optFilterPrivacy o2 with
                | Some b => Some b
                | None => optFilterPrivacy o1
                end)
               (match optCodeName o2 with
                | Some c => Some c
                | None => optCodeName o1
                end))).
Proof.
  intros Hwb. rewrite !(SetWorkbookProps_loaded f wb _ Hwb). cbn [fst].
  erewrite SetWorkbookProps_loaded by reflexivity.
  destruct o1 as [[d1|] [p1|] [c1|]], o2 as [[d2|] [p2|] [c2|]];
    reflexivity.
Qed.

End Sequences.

Lemma ProtectWorkbook_then_verification_witness :
  WorkBook Sample.plainFile = Some Sample.plain /\
  Sample.hash "0123456789abcdef" "secret" "MD5" "" 100000
  = inl ("salt-0123456789abcdef$MD5$secret", "salt-0123456789abcdef") /\
  @UnprotectWorkbook Sample.collaborators "fedcba9876543210"
    (@ProtectWorkbook Sample.collaborators "0123456789abcdef" Sample.plainFile
       (Some (mkProtectionOptions "MD5" "secret" true false))).1
    ["secret"; "ignored"]
  = (Sample.plainFile, None).
Proof.
  split; [reflexivity|]. split; [reflexivity|].
  refine (eq_trans
            (proj2 (@ProtectWorkbook_then_verification Sample.collaborators
                      "0123456789abcdef" "fedcba9876543210" Sample.plainFile
                      Sample.plain
                      (mkProtectionOptions "MD5" "secret" true false)
                      "salt-0123456789abcdef$MD5$secret"
                      "salt-0123456789abcdef" "secret" ["ignored"] _ _ _)) _);
    [reflexivity | discriminate | reflexivity | vm_compute; reflexivity].
Defined.

Lemma SetWorkbookProps_twice_witness :
  WorkBook Sample.plainFile = Some Sample.plain /\
  @SetWorkbookProps Sample.collaborators
    (@SetWorkbookProps Sample.collaborators Sample.plainFile
       (Some (mkPropsOptions (Some true) None (Some "Book")))).1
    (Some (mkPropsOptions None (Some true) (Some "ThisWorkbook")))
  = @SetWorkbookProps Sample.collaborators Sample.plainFile
      (Some (mkPropsOptions (Some true) (Some true) (Some "ThisWorkbook"))).
Proof.
  split; [reflexivity|].
  apply (@SetWorkbookProps_twice Sample.collaborators Sample.plainFile
           Sample.plain
           (mkPropsOptions (Some true) None (Some "Book"))
           (mkPropsOptions None (Some true) (Some "ThisWorkbook"))).
  reflexivity.
Defined.
